(** * The PhenoAI C++ client ([cpp_client/phenoaiclient.hpp])

    A shallow embedding of the class [PhenoAIClient]: its two fields for the
    server address, its libcurl easy handle, the two prediction entry points
    [predict_values] and [predict_file], the shared [query] and the decoder
    [resultConstructor].

    What lies outside the class is kept as the parameters of one section:
    the outcome of a network transfer, the text libcurl gives for a result
    code, the file system, the JSON parser, and the way a C++ stream prints a
    [float]. *)

From Stdlib Require Import ZArith String Ascii.
From Stdlib Require Floats.
From stdpp Require Import gmap strings list.

#[local] Set Warnings "-register-all".
#[local] Open Scope Z_scope.

(** ** Outcomes of a call *)

(** The exceptions that can leave the class: the two of the JSON library,
    the [std::runtime_error] that [resultConstructor] throws itself, and the
    failure of a file stream whose file cannot be read. *)
Inductive exception : Type :=
  | parse_error                      (* nlohmann::json::parse_error *)
  | type_error (id : Z)              (* nlohmann::json::type_error, with its id *)
  | runtime_error (what : string)    (* std::runtime_error(what) *)
  | ios_failure.                     (* std::ios_base::failure *)

(** A call returns a value, leaves by an exception, or has no defined
    behaviour in C++ (a read past the end of the array, the use of an easy
    handle after [curl_easy_cleanup]). *)
Inductive outcome (A : Type) : Type :=
  | Returned (a : A)
  | Thrown (e : exception)
  | Undefined.
Arguments Returned {A} a.
Arguments Thrown {A} e.
Arguments Undefined {A}.

Definition outcome_bind {A B : Type} (o : outcome A) (k : A -> outcome B) : outcome B :=
  match o with
  | Returned a => k a
  | Thrown e => Thrown e
  | Undefined => Undefined
  end.

(** ** JSON documents ([nlohmann::json])

    [json.hpp] is the nlohmann JSON library, which is not part of the sources
    of the client. A document is modelled by the library's value type: one
    constructor per [value_t], an object being a [std::map] from keys to
    documents (unique keys, compared by their contents), and the three
    operations the decoder uses follow the library's documented behaviour. *)
Inductive json : Type :=
  | JNull
  | JBoolean (b : bool)
  | JNumberInteger (z : Z)
  | JNumberUnsigned (n : N)
  | JNumberFloat (d : PrimFloat.float)
  | JString (s : string)
  | JArray (l : list json)
  | JObject (m : gmap string json).

(** The members of an object (no member for any other document). *)
Definition members (j : json) : gmap string json :=
  match j with
  | JObject m => m
  | _ => ∅
  end.

(** [j[key]] on a document that is not [const]: a null document first becomes
    an empty object; on an object the member is returned, and a key that is
    absent is first added with a null value; any other document throws
    [type_error] 305. The result is the member read and the document as the
    call leaves it. *)
Definition json_subscript (j : json) (key : string) : outcome (json * json) :=
  match j with
  | JNull => Returned (JNull, JObject {[ key := JNull ]})
  | JObject m =>
      match m !! key with
      | Some v => Returned (v, JObject m)
      | None => Returned (JNull, JObject (<[ key := JNull ]> m))
      end
  | _ => Thrown (type_error 305)
  end.

(** [v == "literal"]: the literal becomes a string document, and documents of
    different types are different (only numbers are compared across types). *)
Definition json_eq_literal (v : json) (literal : string) : bool :=
  match v with
  | JString s => bool_decide (s = literal)
  | _ => false
  end.

(** [std::string s = v;] the implicit conversion of a document to a string:
    the text of a string document, [type_error] 302 for any other. *)
Definition json_get_string (v : json) : outcome string :=
  match v with
  | JString s => Returned s
  | _ => Thrown (type_error 302)
  end.

(** ** libcurl *)

Definition CURLcode : Type := Z.
Definition CURLE_OK : CURLcode := 0.
Definition CURLE_COULDNT_CONNECT : CURLcode := 7.
Definition CURLE_PARTIAL_FILE : CURLcode := 18.
Definition CURLE_RECV_ERROR : CURLcode := 56.

(** The options [query] sets, with their arguments. The write function is
    always [WriteCallback] and the write data always the local [readBuffer]. *)
Inductive CURLoption : Type :=
  | CURLOPT_URL (s : string)
  | CURLOPT_PORT (p : Z)
  | CURLOPT_WRITEFUNCTION
  | CURLOPT_WRITEDATA
  | CURLOPT_POSTFIELDS (s : string).

(** What an easy handle has been told. A string option is recorded as the
    [std::string] whose [c_str()] was passed: the call hands over a pointer
    to that string's own buffer, and how libcurl reads it belongs to the
    transfer. *)
Record easy : Type := Easy {
  easy_url : option string;
  easy_port : option Z;
  easy_write : bool;
  easy_postfields : option string
}.

Definition easy_fresh : easy :=
  {| easy_url := None; easy_port := None; easy_write := false; easy_postfields := None |}.

(** libcurl takes a port from 0 to 65535. *)
Definition port_in_range (p : Z) : bool := (0 <=? p) && (p <=? 65535).

(** The port of a handle after [CURLOPT_PORT] was set to [p]: libcurl
    refuses a port out of range and leaves the handle as it was (the call
    returns an error code, which [query] does not look at). *)
Definition port_after (h : easy) (p : Z) : option Z :=
  if port_in_range p then Some p else easy_port h.

Definition easy_set (h : easy) (o : CURLoption) : easy :=
  match o with
  | CURLOPT_URL s => Easy (Some s) (easy_port h) (easy_write h) (easy_postfields h)
  | CURLOPT_PORT p => Easy (easy_url h) (port_after h p) (easy_write h) (easy_postfields h)
  | CURLOPT_WRITEFUNCTION => Easy (easy_url h) (easy_port h) true (easy_postfields h)
  | CURLOPT_WRITEDATA => h
  | CURLOPT_POSTFIELDS s => Easy (easy_url h) (easy_port h) (easy_write h) (Some s)
  end.

(** The field [CURL* _curl]: null when [curl_easy_init] failed, a handle with
    what it has been told, or a pointer left behind by [curl_easy_cleanup]
    (it is not null, and the handle it pointed to is gone). *)
Inductive CURL : Type :=
  | NullHandle
  | EasyHandle (h : easy)
  | Released.

(** ** Files *)

(** What a path stands for when a stream is opened on it and read to its
    end: a file that cannot be opened, a file that opens and cannot be read
    (a directory, for one), or a file with its contents. *)
Inductive file_state : Type :=
  | cannot_open
  | cannot_read
  | readable (content : string).

(** The characters that [std::string content(begin, end)] gets from the
    stream: none from a stream that failed to open, the contents of a file
    that reads, and no string at all when the read fails, which throws. *)
Definition stream_text (f : file_state) : option string :=
  match f with
  | cannot_open => Some ""
  | cannot_read => None
  | readable content => Some content
  end.

(** ** The client and what a call does to the world *)

Record PhenoAIClient : Type := Client {
  _server_ip : string;
  _server_port : Z;
  _curl : CURL
}.

(** What a call does besides computing its result, in the order it does it. *)
Inductive event : Type :=
  | ev_read (i : Z)                       (* data[i] is read *)
  | ev_ifstream (filepath : string)       (* std::ifstream ifs(filepath) *)
  | ev_setopt (o : CURLoption)            (* curl_easy_setopt(_curl, o) *)
  | ev_perform (h : easy) (res : CURLcode)  (* curl_easy_perform on the handle as set *)
  | ev_cleanup                            (* curl_easy_cleanup(_curl) *)
  | ev_cout (s : string).                 (* std::cout << s *)

(** A member function: from the object it is called on to its outcome, the
    object afterwards and the events of the call. *)
Definition M (A : Type) : Type := PhenoAIClient -> outcome A * PhenoAIClient * list event.

Definition ret {A : Type} (a : A) : M A := fun this => (Returned a, this, []).

Definition bind {A B : Type} (m : M A) (k : A -> M B) : M B := fun this =>
  match m this with
  | (Returned a, this1, t1) =>
      match k a this1 with
      | (r, this2, t2) => (r, this2, t1 ++ t2)
      end
  | (Thrown e, this1, t1) => (Thrown e, this1, t1)
  | (Undefined, this1, t1) => (Undefined, this1, t1)
  end.

(** A computation that touches neither the object nor the world. *)
Definition lift {A : Type} (o : outcome A) : M A := fun this => (o, this, []).

Definition emit (e : event) : M unit := fun this => (Returned tt, this, [e]).

Declare Scope cpp_scope.
Delimit Scope cpp_scope with cpp.
Notation "x <- m ;; k" := (bind m (fun x => k))
  (at level 100, m at next level, right associativity) : cpp_scope.
Notation "m ;; k" := (bind m (fun _ => k))
  (at level 100, right associativity) : cpp_scope.
Notation "' ( x , y ) <- m ;; k" := (bind m (fun xy => let '(x, y) := xy in k))
  (at level 100, m at next level, x name, y name, right associativity) : cpp_scope.
#[local] Open Scope cpp_scope.

Definition result_of {A : Type} (r : outcome A * PhenoAIClient * list event) : outcome A := r.1.1.
Definition client_of {A : Type} (r : outcome A * PhenoAIClient * list event) : PhenoAIClient := r.1.2.
Definition events_of {A : Type} (r : outcome A * PhenoAIClient * list event) : list event := r.2.

(** The body of a loop run for each index of [range] in turn, threading the
    loop's variable [acc]. *)
Fixpoint for_each {A : Type} (range : list Z) (body : Z -> A -> M A) (acc : A) : M A :=
  match range with
  | [] => ret acc
  | i :: rest => acc' <- body i acc ;; for_each rest body acc'
  end.

(** [data[i]] for an array that holds the elements of [data]. *)
Definition array_read {A : Type} (data : list A) (i : Z) : M A := fun this =>
  match (if 0 <=? i then data !! Z.to_nat i else None) with
  | Some x => (Returned x, this, [ev_read i])
  | None => (Undefined, this, [])
  end.

Definition newline : string := String (ascii_of_nat 10) "".

(** ** The class *)

Section PhenoAIClient.

(** The network and the server, as libcurl shows them to the client: for a
    handle as it was set up, the result code of [curl_easy_perform] and the
    pieces of the response body it delivered to the write function before
    it returned (after a failure: none, or the part that arrived). *)
Variable transfer : easy -> CURLcode * list string.
(** [curl_easy_strerror]. *)
Variable curl_easy_strerror : CURLcode -> string.
(** What is at each path. *)
Variable filesystem : string -> file_state.
(** [nlohmann::json::parse]; [None] when the text is not a JSON document. *)
Variable json_parse : string -> option json.
(** The C++ type [float] and what [buff << x] writes for a value of it
    (the default formatting of the stream). *)
Variable float : Type.
Variable ostream_float : float -> string.

Definition get_this : M PhenoAIClient := fun this => (Returned this, this, []).

(** *** Getters and setters *)

Definition get_server_ip : M string := fun this => (Returned (_server_ip this), this, []).
Definition get_server_port : M Z := fun this => (Returned (_server_port this), this, []).
Definition set_server_ip (ip : string) : M unit := fun this =>
  (Returned tt, Client ip (_server_port this) (_curl this), []).
Definition set_server_port (port : Z) : M unit := fun this =>
  (Returned tt, Client (_server_ip this) port (_curl this), []).

(** *** The libcurl calls on [_curl] *)

Definition curl_easy_init (ok : bool) : CURL :=
  if ok then EasyHandle easy_fresh else NullHandle.

Definition curl_easy_setopt (o : CURLoption) : M unit := fun this =>
  match _curl this with
  | EasyHandle h =>
      (Returned tt, Client (_server_ip this) (_server_port this) (EasyHandle (easy_set h o)),
       [ev_setopt o])
  | NullHandle => (Returned tt, this, [])
  | Released => (Undefined, this, [])
  end.

(** [static size_t WriteCallback(void *contents, size_t size, size_t nmemb, void* userp)]:
    appends the [size * nmemb] bytes at [contents] to the string at [userp]
    and returns their number. *)
Definition WriteCallback (contents : string) (size nmemb : Z) (userp : string) : string * Z :=
  (userp +:+ String.substring 0 (Z.to_nat (size * nmemb)) contents, size * nmemb).

(** libcurl hands each piece of the body to the write function, with
    [size] 1 and [nmemb] its length. *)
Definition deliver (userp : string) (chunks : list string) : string :=
  foldl (fun userp contents =>
           (WriteCallback contents 1 (Z.of_nat (String.length contents)) userp).1)
        userp chunks.

(** [curl_easy_perform(_curl)] with [readBuffer] as the write data; a
    handle without a write function writes the body to the standard
    output. *)
Definition curl_easy_perform (readBuffer : string) : M (CURLcode * string) := fun this =>
  match _curl this with
  | EasyHandle h =>
      let '(res, chunks) := transfer h in
      if easy_write h
      then (Returned (res, deliver readBuffer chunks), this, [ev_perform h res])
      else (Returned (res, readBuffer), this, ev_perform h res :: map ev_cout chunks)
  | NullHandle => (Returned (43, readBuffer), this, []) (* CURLE_BAD_FUNCTION_ARGUMENT *)
  | Released => (Undefined, this, [])
  end.

Definition curl_easy_cleanup : M unit := fun this =>
  match _curl this with
  | EasyHandle h =>
      (Returned tt, Client (_server_ip this) (_server_port this) Released, [ev_cleanup])
  | NullHandle => (Returned tt, this, [])
  | Released => (Undefined, this, [])
  end.

(** *** Constructor *)

(** [PhenoAIClient(std::string ip, int port)]; [ok] tells whether
    [curl_easy_init] gave a handle. *)
Definition PhenoAIClient_new (ok : bool) (ip : string) (port : Z) : PhenoAIClient :=
  let this := Client "" 0 NullHandle in
  let this := client_of (set_server_ip ip this) in
  let this := client_of (set_server_port port this) in
  Client (_server_ip this) (_server_port this) (curl_easy_init ok).

(** *** Send request *)

Definition query (mode data : string) (mapping : bool) : M string :=
  let mapping_str := if mapping then "1" else "0" in
  let poststring :=
    (((((("get_results_as_string=1&mode=" +:+ mode) +:+ "&data=") +:+ data)
        +:+ "&mapping=") +:+ mapping_str) +:+ "") in
  let readBuffer := "" in
  this <- get_this ;;
  match _curl this with
  | NullHandle => ret readBuffer
  | _ =>
      curl_easy_setopt (CURLOPT_URL (_server_ip this)) ;;
      curl_easy_setopt (CURLOPT_PORT (_server_port this)) ;;
      curl_easy_setopt CURLOPT_WRITEFUNCTION ;;
      curl_easy_setopt CURLOPT_WRITEDATA ;;
      curl_easy_setopt (CURLOPT_POSTFIELDS poststring) ;;
      '(res, readBuffer) <- curl_easy_perform readBuffer ;;
      (if negb (res =? CURLE_OK)
       then emit (ev_cout ("curl_easy_perform() failed: " +:+ curl_easy_strerror res +:+ newline))
       else ret tt) ;;
      curl_easy_cleanup ;;
      ret readBuffer
  end.

(** *** Result constructor *)

Definition resultConstructor (result : string) : outcome json :=
  match json_parse result with
  | None => Thrown parse_error
  | Some jsonresult =>
      outcome_bind (json_subscript jsonresult "status") (fun '(status, jsonresult) =>
      if json_eq_literal status "error" then
        outcome_bind (json_subscript jsonresult "type") (fun '(type, jsonresult) =>
        outcome_bind (json_get_string type) (fun errortype =>
        outcome_bind (json_subscript jsonresult "message") (fun '(message, jsonresult) =>
        outcome_bind (json_get_string message) (fun errormessage =>
        let error := (errormessage +:+ " (") +:+ errortype +:+ ")" in
        Thrown (runtime_error error)))))
      else Returned jsonresult)
  end.

(** *** Predict functions *)

Definition predict_values (data : list float) (nParameters : Z) (mapping : bool) : M json :=
  datalist <- for_each (seqZ 0 nParameters) (fun i datalist =>
                let datalist := if bool_decide (datalist <> "[")
                                then datalist +:+ "," else datalist in
                x <- array_read data i ;;
                let buff := ostream_float x in
                ret (datalist +:+ buff)) "[" ;;
  let datalist := datalist +:+ "]" in
  result <- query "values" datalist mapping ;;
  lift (resultConstructor result).

(** [std::ifstream ifs(filepath)] and the whole stream read into a string:
    a stream that could not be opened yields no character, and a read that
    fails throws out of [predict_file]. *)
Definition ifstream_contents (filepath : string) : M string := fun this =>
  match stream_text (filesystem filepath) with
  | Some content => (Returned content, this, [ev_ifstream filepath])
  | None => (Thrown ios_failure, this, [ev_ifstream filepath])
  end.

Definition predict_file (filepath : string) (mapping : bool) : M json :=
  content <- ifstream_contents filepath ;;
  result <- query "file" content mapping ;;
  lift (resultConstructor result).

End PhenoAIClient.

(** ** A concrete world

    The client of [run.cpp], and servers, files and texts to run it
    against. *)

(** The three values of [float data[3] = {1.5, 0.0, 1.0}] in [run.cpp], and
    how a stream prints each. *)
Inductive run_float : Type := f_1_5 | f_0_0 | f_1_0.

Definition run_ostream_float (x : run_float) : string :=
  match x with
  | f_1_5 => "1.5"
  | f_0_0 => "0"
  | f_1_0 => "1"
  end.

(** [PhenoAIClient client("127.0.0.1", 8081)]. *)
Definition run_client : PhenoAIClient := PhenoAIClient_new true "127.0.0.1" 8081.

Definition demo_strerror (res : CURLcode) : string :=
  if res =? CURLE_OK then "No error"
  else if res =? CURLE_COULDNT_CONNECT then "Couldn't connect to server"
  else if res =? CURLE_PARTIAL_FILE then "Transferred a partial file"
  else if res =? CURLE_RECV_ERROR then "Failure when receiving data from the peer"
  else "Unknown error".

(** A JSON string token: the text between two double quotes. *)
Definition quoted (s : string) : string :=
  String (ascii_of_nat 34) (s +:+ String (ascii_of_nat 34) "").

(** The text [{"status":"error","type":<type>,"message":<message>}]. *)
Definition error_text (type message : string) : string :=
  "{" +:+ quoted "status" +:+ ":" +:+ quoted "error" +:+ ","
      +:+ quoted "type" +:+ ":" +:+ quoted type +:+ ","
      +:+ quoted "message" +:+ ":" +:+ quoted message +:+ "}".

Definition error_document (type message : string) : json :=
  JObject (<["status" := JString "error"]>
           (<["type" := JString type]>
            (<["message" := JString message]> ∅))).

(** The text [{"status":"ok"}]. *)
Definition ok_text : string := "{" +:+ quoted "status" +:+ ":" +:+ quoted "ok" +:+ "}".
Definition ok_document : json := JObject {[ "status" := JString "ok" ]}.

(** The beginning of [{"status":"ok","prediction":[0.1,0.2]}], as far as it
    arrived before the connection was lost. *)
Definition partial_text : string :=
  "{" +:+ quoted "status" +:+ ":" +:+ quoted "ok" +:+ "," +:+ quoted "prediction" +:+ ":[0.1,".

(** The JSON parser on the texts used below: it maps each of them to the
    document that the text denotes, and rejects the empty text and the text
    that breaks off. No other text is given to it. *)
Definition demo_parse (text : string) : option json :=
  if bool_decide (text = "{}") then Some (JObject ∅)
  else if bool_decide (text = "[]") then Some (JArray [])
  else if bool_decide (text = "null") then Some JNull
  else if bool_decide (text = ok_text) then Some ok_document
  else if bool_decide (text = error_text "InputError" "bad shape")
       then Some (error_document "InputError" "bad shape")
  else if bool_decide (text = error_text "Fatal" "bad shape (InputError)")
       then Some (error_document "Fatal" "bad shape (InputError)")
  else if bool_decide (text = error_text "InputError) (Fatal" "bad shape")
       then Some (error_document "InputError) (Fatal" "bad shape")
  else None.

(** A server that cannot be reached: the transfer fails at once. *)
Definition transfer_refused (h : easy) : CURLcode * list string :=
  (CURLE_COULDNT_CONNECT, []).

(** A server that accepts the request and loses the connection while it
    answers. *)
Definition transfer_dropped (h : easy) : CURLcode * list string :=
  (CURLE_RECV_ERROR, [partial_text]).

(** A server whose answer is cut short of its announced length, after a text
    that happens to be a whole document. *)
Definition transfer_cut (h : easy) : CURLcode * list string :=
  (CURLE_PARTIAL_FILE, [ok_text]).

(** A server that answers every request with the given body, in one piece. *)
Definition transfer_answer (body : string) (h : easy) : CURLcode * list string :=
  (CURLE_OK, [body]).

(** A file system without any file. *)
Definition no_file (filepath : string) : file_state := cannot_open.

(** ** Notions of the specification *)

(** A call leaves by an exception. *)
Definition raises {A : Type} (r : outcome A * PhenoAIClient * list event) : Prop :=
  exists e, result_of r = Thrown e.

(** A call performed a network transfer. *)
Definition transfers (t : list event) : Prop :=
  exists h res, ev_perform h res ∈ t.

(** The specification's decoder for error documents: whatever it raises for
    a document with status ["error"], the caller gets the document's [type]
    and [message] back from it, each on its own. *)
Definition exposes_type_and_message (json_parse : string -> option json) : Prop :=
  exists fields : exception -> string * string,
    forall result m type message,
      json_parse result = Some (JObject m) ->
      m !! "status" = Some (JString "error") ->
      m !! "type" = Some (JString type) ->
      m !! "message" = Some (JString message) ->
      exists e, resultConstructor json_parse result = Thrown e /\ fields e = (type, message).

(** The list literal the specification describes: the printed values in
    order, separated by commas, between square brackets. *)
Definition list_literal {float : Type} (ostream_float : float -> string)
    (data : list float) : string :=
  "[" +:+ String.concat "," (map ostream_float data) +:+ "]".

(** The request body the specification describes. *)
Definition form_body (mode data : string) (mapping : bool) : string :=
  "get_results_as_string=1&mode=" +:+ mode +:+ "&data=" +:+ data +:+ "&mapping="
    +:+ (if mapping then "1" else "0").

(** ** [query] in closed form *)

(** The handle as [query] has set it when it performs the transfer, from the
    handle [h] as it was before. *)
Definition query_handle (h : easy) (ip : string) (port : Z) (mode data : string)
    (mapping : bool) : easy :=
  Easy (Some ip) (port_after h port) true (Some (form_body mode data mapping)).

(** What [query] tells the handle, in order. *)
Definition query_setopts (ip : string) (port : Z) (mode data : string) (mapping : bool)
  : list event :=
  [ev_setopt (CURLOPT_URL ip); ev_setopt (CURLOPT_PORT port);
   ev_setopt CURLOPT_WRITEFUNCTION; ev_setopt CURLOPT_WRITEDATA;
   ev_setopt (CURLOPT_POSTFIELDS (form_body mode data mapping))].

(** ** Counting and calling in sequence *)

Definition is_perform (e : event) : bool :=
  match e with
  | ev_perform _ _ => true
  | _ => false
  end.

Definition is_cout (e : event) : bool :=
  match e with
  | ev_cout _ => true
  | _ => false
  end.

(** The number of network transfers among the events of a call. *)
Definition transfer_count (t : list event) : nat := length (List.filter is_perform t).

(** A call of one of the two setters, and a sequence of such calls made one
    after the other on the same client. *)
Inductive setter_call : Type :=
  | call_set_server_ip (ip : string)
  | call_set_server_port (port : Z).

Definition run_setter (c : setter_call) : M unit :=
  match c with
  | call_set_server_ip ip => set_server_ip ip
  | call_set_server_port port => set_server_port port
  end.

Fixpoint run_setters (calls : list setter_call) : M unit :=
  match calls with
  | [] => ret tt
  | c :: calls => run_setter c ;; run_setters calls
  end.

(** The last address that a sequence of setter calls stores, from the one
    the client had before. *)
Fixpoint last_ip (ip : string) (calls : list setter_call) : string :=
  match calls with
  | [] => ip
  | call_set_server_ip ip' :: calls => last_ip ip' calls
  | call_set_server_port _ :: calls => last_ip ip calls
  end.

Fixpoint last_port (port : Z) (calls : list setter_call) : Z :=
  match calls with
  | [] => port
  | call_set_server_ip _ :: calls => last_port port calls
  | call_set_server_port port' :: calls => last_port port' calls
  end.

(** A text has no NUL character in it: as a C string it is read whole. *)
Fixpoint nul_free (s : string) : bool :=
  match s with
  | EmptyString => true
  | String c s => negb (Ascii.eqb c Ascii.zero) && nul_free s
  end.

(** A text has no comma in it. *)
Fixpoint comma_free (s : string) : bool :=
  match s with
  | EmptyString => true
  | String c s => negb (Ascii.eqb c ",") && comma_free s
  end.

(** ** More of the concrete world *)

(** The text [{"status":"error"}], and the text
    [{"status":"error","type":"InputError"}]: error documents that lack the
    message, or the type and the message. *)
Definition error_only_text : string :=
  "{" +:+ quoted "status" +:+ ":" +:+ quoted "error" +:+ "}".
Definition error_type_text : string :=
  "{" +:+ quoted "status" +:+ ":" +:+ quoted "error" +:+ ","
      +:+ quoted "type" +:+ ":" +:+ quoted "InputError" +:+ "}".

(** The JSON parser on these two texts as well. *)
Definition demo_parse_more (text : string) : option json :=
  if bool_decide (text = error_only_text)
  then Some (JObject {[ "status" := JString "error" ]})
  else if bool_decide (text = error_type_text)
  then Some (JObject (<["status" := JString "error"]> {[ "type" := JString "InputError" ]}))
  else demo_parse text.

(** A file system with one file, [/data/events.txt], an empty file,
    [/data/empty.txt], and the directory [/data] that holds them. *)
Definition two_files (filepath : string) : file_state :=
  if bool_decide (filepath = "/data/events.txt") then readable "1.5 0.0 1.0"
  else if bool_decide (filepath = "/data/empty.txt") then readable ""
  else if bool_decide (filepath = "/data") then cannot_read
  else cannot_open.

(** A server that answers [{"status":"ok"}] in three pieces. *)
Definition transfer_pieces (h : easy) : CURLcode * list string :=
  (CURLE_OK, ["{" +:+ quoted "status"; ":" +:+ quoted "ok"; "}"]).

(** [result.dump(4)] for the document [{"status":"ok"}]: one member to a
    line, indented by four spaces. No other document is printed below. *)
Definition demo_dump (doc : json) (indent : Z) : string :=
  "{" +:+ newline +:+ "    " +:+ quoted "status" +:+ ": " +:+ quoted "ok" +:+ newline +:+ "}".

(** ** [run.cpp] *)

Section Main.
Variable transfer : easy -> CURLcode * list string.
Variable curl_easy_strerror : CURLcode -> string.
Variable json_parse : string -> option json.
Variable float : Type.
Variable ostream_float : float -> string.
(** [result.dump(indent)], the text of a document. *)
Variable json_dump : json -> Z -> string.
(** Whether [curl_easy_init] gives a handle. *)
Variable init_ok : bool.
(** The [float] values of the literals [1.5], [0.0] and [1.0]. *)
Variable float_1_5 float_0_0 float_1_0 : float.

(** [int main()]: its exit status, or the exception that ends the program,
    with the client as it is at the end and the events of the run. *)
Definition main : outcome Z * PhenoAIClient * list event :=
  let client := PhenoAIClient_new init_ok "127.0.0.1" 8081 in
  let data := [float_1_5; float_0_0; float_1_0] in
  (result <- predict_values transfer curl_easy_strerror json_parse float ostream_float
               data 3 true ;;
   emit (ev_cout (json_dump result 4 +:+ newline)) ;;
   ret 0) client.
End Main.

(** * Proofs *)

(** ** Strings *)

Lemma string_app_cons (a : ascii) (s t : string) : String a s +:+ t = String a (s +:+ t).
Proof. reflexivity. Qed.

Lemma string_app_nil_r (s : string) : s +:+ "" = s.
Proof.
  induction s as [|a s IH]; [reflexivity|].
  rewrite string_app_cons. by rewrite IH.
Qed.

Lemma string_app_assoc (s t u : string) : (s +:+ t) +:+ u = s +:+ t +:+ u.
Proof.
  induction s as [|a s IH]; [reflexivity|].
  rewrite !string_app_cons. by rewrite IH.
Qed.

Lemma string_app_nil_inv (s t : string) : s +:+ t = "" -> s = "" /\ t = "".
Proof.
  destruct s as [|a s].
  - intros H. split; [reflexivity | exact H].
  - rewrite string_app_cons. discriminate.
Qed.

Lemma substring_whole (s : string) : String.substring 0 (String.length s) s = s.
Proof. induction s as [|a s IH]; simpl; [reflexivity|]. by rewrite IH. Qed.

Lemma concat_snoc (sep : string) (l : list string) (x : string) :
  String.concat sep (l ++ [x]) =
  match l with
  | [] => x
  | _ => String.concat sep l +:+ sep +:+ x
  end.
Proof.
  induction l as [|y l IH]; [reflexivity|].
  destruct l as [|z l].
  - reflexivity.
  - change (String.concat sep ((y :: z :: l) ++ [x]))
      with (y +:+ sep +:+ String.concat sep ((z :: l) ++ [x])).
    rewrite IH.
    change (String.concat sep (y :: z :: l)) with (y +:+ sep +:+ String.concat sep (z :: l)).
    by rewrite !string_app_assoc.
Qed.

Lemma concat_nonempty (sep : string) (l : list string) :
  l <> [] -> Forall (fun s => s <> "") l -> String.concat sep l <> "".
Proof.
  destruct l as [|x l]; [done|]. intros _ Hl.
  apply Forall_cons in Hl as [Hx _].
  destruct l; simpl; [done|].
  intros [? _]%string_app_nil_inv. done.
Qed.

(** ** The write function and [query] *)

(** An event of one kind is not in a list of events of other kinds. *)
Ltac not_among_events :=
  let Hin := fresh "Hin" in
  intros Hin;
  repeat (apply elem_of_cons in Hin as [Hin|Hin]; [discriminate Hin|]);
  by apply elem_of_nil in Hin.

(** The three outcomes of the [query] inside an entry point. *)
Ltac by_outcome_of_query :=
  destruct (query _ _ _ _ _ _) as [[[?| |] ?] ?];
  unfold result_of, client_of, events_of, lift; cbn [fst snd outcome_bind app];
  by rewrite ?app_nil_r.

Lemma WriteCallback_appends (contents userp : string) :
  WriteCallback contents 1 (Z.of_nat (String.length contents)) userp =
  (userp +:+ contents, Z.of_nat (String.length contents)).
Proof.
  unfold WriteCallback. rewrite Z.mul_1_l, Nat2Z.id, substring_whole. reflexivity.
Qed.

Lemma deliver_concat (userp : string) (chunks : list string) :
  deliver userp chunks = userp +:+ String.concat "" chunks.
Proof.
  unfold deliver. revert userp.
  induction chunks as [|c chunks IH]; intros userp; cbn [foldl String.concat].
  - by rewrite string_app_nil_r.
  - rewrite WriteCallback_appends. cbn [fst]. rewrite IH, string_app_assoc.
    destruct chunks; [|reflexivity].
    cbn [String.concat]. by rewrite string_app_nil_r.
Qed.

(** The string [poststring] that [query] builds is the body of the
    specification. *)
Lemma poststring_form_body (mode data : string) (mapping : bool) :
  (((((("get_results_as_string=1&mode=" +:+ mode) +:+ "&data=") +:+ data)
      +:+ "&mapping=") +:+ (if mapping then "1" else "0")) +:+ "")
  = form_body mode data mapping.
Proof. unfold form_body. by rewrite string_app_nil_r, !string_app_assoc. Qed.

Section Query.
Variable transfer : easy -> CURLcode * list string.
Variable curl_easy_strerror : CURLcode -> string.

(** [query] on a client whose handle is live, in full. *)
Lemma query_live (mode data : string) (mapping : bool) (ip : string) (port : Z) (h : easy) :
  query transfer curl_easy_strerror mode data mapping (Client ip port (EasyHandle h)) =
  (Returned (String.concat "" (transfer (query_handle h ip port mode data mapping)).2),
   Client ip port Released,
   query_setopts ip port mode data mapping
   ++ [ev_perform (query_handle h ip port mode data mapping)
                  (transfer (query_handle h ip port mode data mapping)).1]
   ++ (if (transfer (query_handle h ip port mode data mapping)).1 =? CURLE_OK then []
       else [ev_cout ("curl_easy_perform() failed: "
                      +:+ curl_easy_strerror (transfer (query_handle h ip port mode data mapping)).1
                      +:+ newline)])
   ++ [ev_cleanup]).
Proof.
  unfold query. rewrite poststring_form_body.
  unfold bind, get_this, curl_easy_setopt, curl_easy_perform, curl_easy_cleanup, emit, ret.
  cbn [_curl _server_ip _server_port easy_set easy_url easy_port easy_write easy_postfields].
  change (port_after (Easy (Some ip) (easy_port h) (easy_write h) (easy_postfields h)) port)
    with (port_after h port).
  fold (query_handle h ip port mode data mapping).
  destruct (transfer (query_handle h ip port mode data mapping)) as [res chunks].
  cbn [fst snd]. rewrite deliver_concat.
  destruct (res =? CURLE_OK); reflexivity.
Qed.

(** Without a handle [query] does nothing and returns the empty buffer. *)
Lemma query_null (mode data : string) (mapping : bool) (ip : string) (port : Z) :
  query transfer curl_easy_strerror mode data mapping (Client ip port NullHandle) =
  (Returned "", Client ip port NullHandle, []).
Proof. reflexivity. Qed.

(** On a handle that was released, [query] has no defined behaviour. *)
Lemma query_released (mode data : string) (mapping : bool) (ip : string) (port : Z) :
  query transfer curl_easy_strerror mode data mapping (Client ip port Released) =
  (Undefined, Client ip port Released, []).
Proof. reflexivity. Qed.

(** [query] reads no element of any array. *)
Lemma query_reads_nothing (mode data : string) (mapping : bool) (this : PhenoAIClient) (i : Z) :
  ev_read i ∉ events_of (query transfer curl_easy_strerror mode data mapping this).
Proof.
  destruct this as [ip port [|h|]].
  - rewrite query_null. apply not_elem_of_nil.
  - rewrite query_live. unfold events_of, query_setopts. cbn [snd].
    destruct (_ =? _); cbn [app]; not_among_events.
  - rewrite query_released. apply not_elem_of_nil.
Qed.
End Query.

(** ** The prediction entry points *)

Section Predict.
Variable transfer : easy -> CURLcode * list string.
Variable curl_easy_strerror : CURLcode -> string.
Variable filesystem : string -> file_state.
Variable json_parse : string -> option json.
Variable float : Type.
Variable ostream_float : float -> string.

Lemma bracket_app_neq (s : string) : "[" +:+ s <> "[" <-> s <> "".
Proof.
  change ("[" +:+ s) with (String "[" s). split.
  - intros H ->. by apply H.
  - intros H [= ->]. by apply H.
Qed.

(** The loop of [predict_values], from any point of the array on: with the
    elements of [done] printed into [datalist], it prints those of [rest]
    after them, reading each element once and in order. It needs the
    stream to print at least one character for every value, since the loop
    tells the first round from the later ones by [datalist != "["]. *)
Lemma values_loop (done rest : list float) (this : PhenoAIClient) :
  (forall v, ostream_float v <> "") ->
  for_each (seqZ (Z.of_nat (length done)) (Z.of_nat (length rest)))
    (fun i datalist =>
       let datalist := if bool_decide (datalist <> "[")
                       then datalist +:+ "," else datalist in
       x <- array_read (done ++ rest) i ;;
       let buff := ostream_float x in
       ret (datalist +:+ buff))
    ("[" +:+ String.concat "," (map ostream_float done)) this
  = (Returned ("[" +:+ String.concat "," (map ostream_float (done ++ rest))), this,
     map ev_read (seqZ (Z.of_nat (length done)) (Z.of_nat (length rest)))).
Proof.
  intros Hprint. cbv zeta. revert done.
  induction rest as [|x rest IH]; intros done.
  - rewrite app_nil_r. reflexivity.
  - rewrite (seqZ_cons (Z.of_nat (length done))) by (cbn [length]; lia).
    replace (Z.succ (Z.of_nat (length done))) with (Z.of_nat (length (done ++ [x])))
      by (rewrite length_app; cbn [length]; lia).
    replace (Z.pred (Z.of_nat (length (x :: rest)))) with (Z.of_nat (length rest))
      by (cbn [length]; lia).
    cbn [for_each map]. unfold bind at 1. unfold bind at 1. unfold array_read at 1.
    assert ((0 <=? Z.of_nat (length done)) = true) as -> by (apply Z.leb_le; lia).
    rewrite Nat2Z.id. rewrite list_lookup_middle by reflexivity.
    unfold ret at 1. cbn [app].
    specialize (IH (done ++ [x])).
    replace ((done ++ [x]) ++ rest) with (done ++ x :: rest) in IH
      by (by rewrite <- app_assoc).
    assert ((if bool_decide ("[" +:+ String.concat "," (map ostream_float done) <> "[")
             then ("[" +:+ String.concat "," (map ostream_float done)) +:+ ","
             else "[" +:+ String.concat "," (map ostream_float done)) +:+ ostream_float x
            = "[" +:+ String.concat "," (map ostream_float (done ++ [x]))) as ->.
    { rewrite map_app. cbn [map]. rewrite concat_snoc.
      destruct done as [|y done].
      - reflexivity.
      - rewrite bool_decide_true.
        + by rewrite !string_app_assoc.
        + apply bracket_app_neq, concat_nonempty; [done|].
          apply Forall_forall. intros s [v [-> _]]%list_elem_of_fmap. apply Hprint. }
    rewrite IH. reflexivity.
Qed.

(** [predict_values] on a whole array: it reads the elements in order,
    sends the list literal in mode ["values"], and its outcome is the
    decoder's on the buffer that [query] returns. *)
Lemma predict_values_eq (data : list float) (mapping : bool) (this : PhenoAIClient) :
  (forall v, ostream_float v <> "") ->
  predict_values transfer curl_easy_strerror json_parse float ostream_float
    data (Z.of_nat (length data)) mapping this
  = (outcome_bind
       (result_of (query transfer curl_easy_strerror "values"
                     (list_literal ostream_float data) mapping this))
       (resultConstructor json_parse),
     client_of (query transfer curl_easy_strerror "values"
                  (list_literal ostream_float data) mapping this),
     map ev_read (seqZ 0 (Z.of_nat (length data)))
     ++ events_of (query transfer curl_easy_strerror "values"
                     (list_literal ostream_float data) mapping this)).
Proof.
  intros Hprint. unfold predict_values. unfold bind at 1.
  pose proof (values_loop [] data this Hprint) as Hloop.
  cbv zeta in Hloop |- *. cbn [app length] in Hloop.
  change (Z.of_nat 0) with 0 in Hloop.
  change ("[" +:+ String.concat "," (map ostream_float [])) with "[" in Hloop.
  rewrite Hloop. cbn [app].
  unfold bind at 1, list_literal. rewrite string_app_assoc.
  by_outcome_of_query.
Qed.

(** [predict_file] on a path whose stream yields a text: it sends the text
    (nothing when the file could not be opened) in mode ["file"], and its
    outcome is the decoder's on the buffer that [query] returns. *)
Lemma predict_file_eq (filepath content : string) (mapping : bool) (this : PhenoAIClient) :
  stream_text (filesystem filepath) = Some content ->
  predict_file transfer curl_easy_strerror filesystem json_parse filepath mapping this
  = (outcome_bind
       (result_of (query transfer curl_easy_strerror "file" content mapping this))
       (resultConstructor json_parse),
     client_of (query transfer curl_easy_strerror "file" content mapping this),
     ev_ifstream filepath
     :: events_of (query transfer curl_easy_strerror "file" content mapping this)).
Proof.
  intros Htext. unfold predict_file. unfold bind at 1. unfold ifstream_contents.
  rewrite Htext. unfold bind at 1.
  by_outcome_of_query.
Qed.

(** [predict_file] on a path that opens and cannot be read: the read throws
    before [query] is called. *)
Lemma predict_file_cannot_read (filepath : string) (mapping : bool) (this : PhenoAIClient) :
  stream_text (filesystem filepath) = None ->
  predict_file transfer curl_easy_strerror filesystem json_parse filepath mapping this
  = (Thrown ios_failure, this, [ev_ifstream filepath]).
Proof.
  intros Htext. unfold predict_file. unfold bind at 1. unfold ifstream_contents.
  by rewrite Htext.
Qed.

(** Both entry points return what the decoder makes of the buffer that
    [query] returned. *)
Lemma predict_file_decodes (filepath content : string) (mapping : bool)
    (this : PhenoAIClient) (result : string) :
  stream_text (filesystem filepath) = Some content ->
  result_of (query transfer curl_easy_strerror "file" content mapping this)
  = Returned result ->
  result_of (predict_file transfer curl_easy_strerror filesystem json_parse
               filepath mapping this)
  = resultConstructor json_parse result.
Proof.
  intros Htext Hquery. rewrite (predict_file_eq filepath content) by exact Htext.
  unfold result_of at 1. cbn [fst]. by rewrite Hquery.
Qed.

Lemma predict_values_decodes (data : list float) (mapping : bool) (this : PhenoAIClient)
    (result : string) :
  (forall v, ostream_float v <> "") ->
  result_of (query transfer curl_easy_strerror "values"
               (list_literal ostream_float data) mapping this) = Returned result ->
  result_of (predict_values transfer curl_easy_strerror json_parse float ostream_float
               data (Z.of_nat (length data)) mapping this)
  = resultConstructor json_parse result.
Proof.
  intros Hprint Hquery. rewrite predict_values_eq by exact Hprint.
  unfold result_of at 1. cbn [fst]. by rewrite Hquery.
Qed.
End Predict.

(** ** The program of [run.cpp] *)

(** [client.predict_values(data, 3, true)] against a server that answers
    [{"status":"ok"}]: the three elements are read, the request goes to
    127.0.0.1, port 8081, with the three values in the data field, and the
    answer is returned. *)
Example run_cpp_predict_values :
  predict_values (transfer_answer ok_text) demo_strerror demo_parse run_float
    run_ostream_float [f_1_5; f_0_0; f_1_0] 3 true run_client
  = (Returned ok_document, Client "127.0.0.1" 8081 Released,
     [ev_read 0; ev_read 1; ev_read 2;
      ev_setopt (CURLOPT_URL "127.0.0.1"); ev_setopt (CURLOPT_PORT 8081);
      ev_setopt CURLOPT_WRITEFUNCTION; ev_setopt CURLOPT_WRITEDATA;
      ev_setopt (CURLOPT_POSTFIELDS
                   "get_results_as_string=1&mode=values&data=[1.5,0,1]&mapping=1");
      ev_perform (Easy (Some "127.0.0.1") (Some 8081) true
                    (Some "get_results_as_string=1&mode=values&data=[1.5,0,1]&mapping=1"))
                 CURLE_OK;
      ev_cleanup]).
Proof. reflexivity. Qed.

(** A count beyond the end of the array reads past it. *)
Example run_cpp_count_too_large :
  result_of (predict_values (transfer_answer ok_text) demo_strerror demo_parse run_float
               run_ostream_float [f_1_5; f_0_0; f_1_0] 4 true run_client)
  = Undefined.
Proof. reflexivity. Qed.

(** A second query on the same client uses the handle that the first one
    released. *)
Example run_cpp_second_query :
  result_of ((query (transfer_answer ok_text) demo_strerror "values" "[1.5,0,1]" true ;;
              query (transfer_answer ok_text) demo_strerror "values" "[1.5,0,1]" true)
               run_client)
  = Undefined.
Proof. reflexivity. Qed.

(** A client whose handle could not be created sends nothing, and the
    decoder is given the empty buffer. *)
Example run_cpp_no_handle :
  predict_values (transfer_answer ok_text) demo_strerror demo_parse run_float
    run_ostream_float [f_1_5; f_0_0; f_1_0] 3 true (PhenoAIClient_new false "127.0.0.1" 8081)
  = (Thrown parse_error, PhenoAIClient_new false "127.0.0.1" 8081,
     [ev_read 0; ev_read 1; ev_read 2]).
Proof. reflexivity. Qed.

(** * The claims *)

(** ** The request *)

(** C5: for every mode, data and mapping flag, [query] builds the POST body
    as the concatenation [get_results_as_string=1&mode=<mode>&data=<data>&mapping=<m>],
    where [<m>] is [1] when the flag is true and [0] when it is false: this
    text is what it sets as the POST fields of the handle, and what the
    handle holds when the transfer is performed. *)
Theorem query_post_body (transfer : easy -> CURLcode * list string)
    (curl_easy_strerror : CURLcode -> string)
    (mode data : string) (mapping : bool) (ip : string) (port : Z) (h : easy) :
  exists res rest,
    events_of (query transfer curl_easy_strerror mode data mapping
                 (Client ip port (EasyHandle h)))
    = [ev_setopt (CURLOPT_URL ip); ev_setopt (CURLOPT_PORT port);
       ev_setopt CURLOPT_WRITEFUNCTION; ev_setopt CURLOPT_WRITEDATA;
       ev_setopt (CURLOPT_POSTFIELDS
                    ("get_results_as_string=1&mode=" +:+ mode +:+ "&data=" +:+ data
                     +:+ "&mapping=" +:+ (if mapping then "1" else "0")));
       ev_perform (Easy (Some ip) (port_after h port) true
                     (Some ("get_results_as_string=1&mode=" +:+ mode +:+ "&data=" +:+ data
                            +:+ "&mapping=" +:+ (if mapping then "1" else "0"))))
                  res]
      ++ rest.
Proof.
  rewrite query_live. unfold events_of. cbn [snd].
  eexists _, _. unfold query_setopts, query_handle, form_body. cbn [app]. reflexivity.
Qed.

(** ** The handle *)

(** C8: whenever [query] attempts a transfer, the handle is released after
    it, whatever the transfer's result code: [curl_easy_cleanup] is the last
    thing the call does, it comes after [curl_easy_perform] and not before
    it, and the client is left with a released handle. *)
Theorem query_releases_handle (transfer : easy -> CURLcode * list string)
    (curl_easy_strerror : CURLcode -> string)
    (mode data : string) (mapping : bool) (ip : string) (port : Z) (h : easy) :
  exists before h' after,
    events_of (query transfer curl_easy_strerror mode data mapping
                 (Client ip port (EasyHandle h)))
    = before ++ [ev_perform h' (transfer h').1] ++ after ++ [ev_cleanup]
    /\ (ev_cleanup ∉ before)
    /\ _curl (client_of (query transfer curl_easy_strerror mode data mapping
                           (Client ip port (EasyHandle h)))) = Released.
Proof.
  rewrite query_live. unfold events_of, client_of. cbn [fst snd _curl].
  eexists (query_setopts ip port mode data mapping), _, _.
  split; [reflexivity|]. split; [|reflexivity].
  unfold query_setopts. not_among_events.
Qed.

(** ** The server address *)




(** ** A transfer that fails *)

(** C1, as the specification words it, fails on the code. When the server
    cannot be reached, [query] raises nothing and returns the empty buffer
    as its result; and when the answer is cut short after a text that
    happens to be a whole document, [predict_values] returns that document
    as if the transfer had succeeded. *)
Lemma transfer_failure_not_raised :
  (transfer_refused (query_handle easy_fresh "127.0.0.1" 8081 "values" "[1.5,0,1]" true)).1 <> CURLE_OK
  /\ query transfer_refused demo_strerror "values" "[1.5,0,1]" true run_client
     = (Returned "", Client "127.0.0.1" 8081 Released,
        query_setopts "127.0.0.1" 8081 "values" "[1.5,0,1]" true
        ++ [ev_perform (query_handle easy_fresh "127.0.0.1" 8081 "values" "[1.5,0,1]" true)
                       CURLE_COULDNT_CONNECT;
            ev_cout ("curl_easy_perform() failed: Couldn't connect to server" +:+ newline);
            ev_cleanup])
  /\ ~ raises (query transfer_refused demo_strerror "values" "[1.5,0,1]" true run_client)
  /\ (transfer_cut (query_handle easy_fresh "127.0.0.1" 8081 "values" "[1.5,0,1]" true)).1 <> CURLE_OK
  /\ result_of (predict_values transfer_cut demo_strerror demo_parse run_float
                  run_ostream_float [f_1_5; f_0_0; f_1_0] 3 true run_client)
     = Returned ok_document.
Proof.
  split; [discriminate|]. split; [reflexivity|]. split; [|split; [discriminate|reflexivity]].
  intros [e He]. discriminate He.
Qed.

(** C1, amended: when the transfer fails, [query] raises nothing. It writes
    [curl_easy_perform() failed: <reason>] to the standard output, releases
    the handle and returns the bytes that were received (none, or a part of
    the body) as its result; both prediction entry points hand that buffer
    to the result decoder, and their outcome is the decoder's. *)
Theorem query_transfer_failure_returns_buffer
    (transfer : easy -> CURLcode * list string) (curl_easy_strerror : CURLcode -> string)
    (filesystem : string -> file_state) (json_parse : string -> option json)
    (mode data : string) (mapping : bool) (ip : string) (port : Z) (h : easy)
    (res : CURLcode) (chunks : list string) :
  transfer (query_handle h ip port mode data mapping) = (res, chunks) ->
  res <> CURLE_OK ->
  query transfer curl_easy_strerror mode data mapping (Client ip port (EasyHandle h))
  = (Returned (String.concat "" chunks), Client ip port Released,
     query_setopts ip port mode data mapping
     ++ [ev_perform (query_handle h ip port mode data mapping) res;
         ev_cout ("curl_easy_perform() failed: " +:+ curl_easy_strerror res +:+ newline);
         ev_cleanup])
  /\ (forall filepath : string,
        mode = "file" -> stream_text (filesystem filepath) = Some data ->
        result_of (predict_file transfer curl_easy_strerror filesystem json_parse
                     filepath mapping (Client ip port (EasyHandle h)))
        = resultConstructor json_parse (String.concat "" chunks))
  /\ (forall (float : Type) (ostream_float : float -> string) (values : list float),
        (forall v, ostream_float v <> "") ->
        mode = "values" -> data = list_literal ostream_float values ->
        result_of (predict_values transfer curl_easy_strerror json_parse float ostream_float
                     values (Z.of_nat (length values)) mapping (Client ip port (EasyHandle h)))
        = resultConstructor json_parse (String.concat "" chunks)).
Proof.
  intros Htransfer Hres.
  assert (query transfer curl_easy_strerror mode data mapping (Client ip port (EasyHandle h))
          = (Returned (String.concat "" chunks), Client ip port Released,
             query_setopts ip port mode data mapping
             ++ [ev_perform (query_handle h ip port mode data mapping) res;
                 ev_cout ("curl_easy_perform() failed: " +:+ curl_easy_strerror res +:+ newline);
                 ev_cleanup])) as Hquery.
  { rewrite query_live, Htransfer. cbn [fst snd].
    apply Z.eqb_neq in Hres. rewrite Hres. reflexivity. }
  split; [exact Hquery|]. split.
  - intros filepath -> Htext. rewrite (predict_file_eq _ _ _ _ filepath data) by exact Htext.
    rewrite Hquery. reflexivity.
  - intros float ostream_float values Hprint -> ->.
    rewrite predict_values_eq by exact Hprint. rewrite Hquery. reflexivity.
Qed.

Lemma query_transfer_failure_returns_buffer_witness :
  transfer_dropped (query_handle easy_fresh "127.0.0.1" 8081 "file" "" true)
  = (CURLE_RECV_ERROR, [partial_text])
  /\ CURLE_RECV_ERROR <> CURLE_OK
  /\ query transfer_dropped demo_strerror "file" "" true run_client
     = (Returned partial_text, Client "127.0.0.1" 8081 Released,
        query_setopts "127.0.0.1" 8081 "file" "" true
        ++ [ev_perform (query_handle easy_fresh "127.0.0.1" 8081 "file" "" true) CURLE_RECV_ERROR;
            ev_cout ("curl_easy_perform() failed: "
                     +:+ demo_strerror CURLE_RECV_ERROR +:+ newline);
            ev_cleanup]).
Proof.
  split; [reflexivity|]. split; [discriminate|].
  apply (query_transfer_failure_returns_buffer transfer_dropped demo_strerror no_file
           demo_parse "file" "" true "127.0.0.1" 8081 easy_fresh
           CURLE_RECV_ERROR [partial_text]);
    [reflexivity | discriminate].
Defined.

(** ** A file that cannot be read *)

(** C2, as the specification words it, fails on the code: for a path that
    cannot be opened, [predict_file] raises nothing, performs the transfer
    with an empty data field, and returns the server's answer. *)
Lemma unreadable_file_not_raised :
  no_file "/nonexistent" = cannot_open
  /\ predict_file (transfer_answer ok_text) demo_strerror no_file demo_parse
       "/nonexistent" true run_client
     = (Returned ok_document, Client "127.0.0.1" 8081 Released,
        ev_ifstream "/nonexistent"
        :: query_setopts "127.0.0.1" 8081 "file" "" true
        ++ [ev_perform (query_handle easy_fresh "127.0.0.1" 8081 "file" "" true) CURLE_OK; ev_cleanup])
  /\ ~ raises (predict_file (transfer_answer ok_text) demo_strerror no_file demo_parse
                 "/nonexistent" true run_client)
  /\ transfers (events_of (predict_file (transfer_answer ok_text) demo_strerror no_file
                             demo_parse "/nonexistent" true run_client)).
Proof.
  split; [reflexivity|]. split; [reflexivity|]. split.
  - intros [e He]. discriminate He.
  - exists (query_handle easy_fresh "127.0.0.1" 8081 "file" "" true), CURLE_OK.
    unfold events_of. cbn [snd].
    repeat (first [apply list_elem_of_here | apply list_elem_of_further]).
Qed.

(** C2, amended: for every mapping flag, [predict_file] on a path that
    cannot be opened (a file that does not exist) raises no error for the
    file. It goes on as for an empty file: it sends a query in mode ["file"]
    with the empty string as data, and its outcome is the decoder's on what
    [query] returns; on a live handle the transfer is performed, with the
    body [get_results_as_string=1&mode=file&data=&mapping=<m>]. On a path
    that opens and cannot be read (a directory), the read throws the
    stream's failure out of [predict_file] before any network transfer. *)
Theorem predict_file_unreadable_sends_empty_data
    (transfer : easy -> CURLcode * list string) (curl_easy_strerror : CURLcode -> string)
    (filesystem : string -> file_state) (json_parse : string -> option json)
    (filepath : string) (mapping : bool) (ip : string) (port : Z) (curl : CURL) :
  (filesystem filepath = cannot_open ->
   predict_file transfer curl_easy_strerror filesystem json_parse filepath mapping
     (Client ip port curl)
   = (outcome_bind
        (result_of (query transfer curl_easy_strerror "file" "" mapping (Client ip port curl)))
        (resultConstructor json_parse),
      client_of (query transfer curl_easy_strerror "file" "" mapping (Client ip port curl)),
      ev_ifstream filepath
      :: events_of (query transfer curl_easy_strerror "file" "" mapping (Client ip port curl)))
   /\ forall h : easy,
       ev_perform
         (Easy (Some ip) (port_after h port) true
            (Some ("get_results_as_string=1&mode=file&data=&mapping="
                   +:+ (if mapping then "1" else "0"))))
         (transfer (query_handle h ip port "file" "" mapping)).1
       ∈ events_of (predict_file transfer curl_easy_strerror filesystem json_parse
                      filepath mapping (Client ip port (EasyHandle h))))
  /\ (filesystem filepath = cannot_read ->
      predict_file transfer curl_easy_strerror filesystem json_parse filepath mapping
        (Client ip port curl)
      = (Thrown ios_failure, Client ip port curl, [ev_ifstream filepath])
      /\ ~ transfers (events_of (predict_file transfer curl_easy_strerror filesystem
                                   json_parse filepath mapping (Client ip port curl)))).
Proof.
  split.
  - intros Hfile.
    assert (stream_text (filesystem filepath) = Some "") as Htext by (by rewrite Hfile).
    split.
    + by rewrite (predict_file_eq _ _ _ _ filepath "") by exact Htext.
    + intros h. rewrite (predict_file_eq _ _ _ _ filepath "") by exact Htext.
      rewrite query_live. unfold events_of. cbn [snd].
      apply list_elem_of_further, elem_of_app. right.
      apply list_elem_of_here.
  - intros Hfile.
    assert (stream_text (filesystem filepath) = None) as Htext by (by rewrite Hfile).
    rewrite predict_file_cannot_read by exact Htext. split; [reflexivity|].
    intros (h & res & Hin). unfold events_of in Hin. cbn [snd] in Hin.
    apply list_elem_of_singleton in Hin. discriminate Hin.
Qed.

Lemma predict_file_unreadable_sends_empty_data_witness :
  no_file "/nonexistent" = cannot_open
  /\ predict_file (transfer_answer ok_text) demo_strerror no_file demo_parse
       "/nonexistent" false run_client
     = (outcome_bind
          (result_of (query (transfer_answer ok_text) demo_strerror "file" "" false run_client))
          (resultConstructor demo_parse),
        client_of (query (transfer_answer ok_text) demo_strerror "file" "" false run_client),
        ev_ifstream "/nonexistent"
        :: events_of (query (transfer_answer ok_text) demo_strerror "file" "" false run_client))
  /\ two_files "/data" = cannot_read
  /\ predict_file (transfer_answer ok_text) demo_strerror two_files demo_parse
       "/data" false run_client
     = (Thrown ios_failure, run_client, [ev_ifstream "/data"]).
Proof.
  split; [reflexivity|]. split.
  - exact (proj1 (proj1 (predict_file_unreadable_sends_empty_data (transfer_answer ok_text)
                           demo_strerror no_file demo_parse "/nonexistent" false
                           "127.0.0.1" 8081 (EasyHandle easy_fresh)) eq_refl)).
  - split; [reflexivity|].
    exact (proj1 (proj2 (predict_file_unreadable_sends_empty_data (transfer_answer ok_text)
                           demo_strerror two_files demo_parse "/data" false
                           "127.0.0.1" 8081 (EasyHandle easy_fresh)) eq_refl)).
Defined.

(** ** The result decoder *)

(** C3, as the specification words it, fails on the code: what the decoder
    raises does not carry the type and the message as two fields. Two
    documents with status ["error"] that differ in both the type and the
    message make it throw the very same error, so no caller can get the two
    values back from it. *)
Lemma error_fields_not_exposed :
  resultConstructor demo_parse (error_text "Fatal" "bad shape (InputError)")
  = Thrown (runtime_error "bad shape (InputError) (Fatal)")
  /\ resultConstructor demo_parse (error_text "InputError) (Fatal" "bad shape")
     = Thrown (runtime_error "bad shape (InputError) (Fatal)")
  /\ ~ exposes_type_and_message demo_parse.
Proof.
  split; [reflexivity|]. split; [reflexivity|].
  intros [fields Hfields].
  destruct (Hfields (error_text "Fatal" "bad shape (InputError)") _
              "Fatal" "bad shape (InputError)" eq_refl eq_refl eq_refl eq_refl)
    as (e1 & He1 & Hf1).
  destruct (Hfields (error_text "InputError) (Fatal" "bad shape") _
              "InputError) (Fatal" "bad shape" eq_refl eq_refl eq_refl eq_refl)
    as (e2 & He2 & Hf2).
  vm_compute in He1, He2.
  injection He1 as <-. injection He2 as <-.
  rewrite Hf1 in Hf2. discriminate Hf2.
Qed.

(** C3, amended: for every response body that parses to a document whose
    status field equals ["error"], the decoder never returns a result: it
    throws, and so does either entry point that received this body. When the
    document's type and message are strings, what is thrown is a runtime
    error whose only content is the one string [<message> (<type>)]. *)
Theorem resultConstructor_error_status (json_parse : string -> option json)
    (result : string) (m : gmap string json) :
  json_parse result = Some (JObject m) ->
  m !! "status" = Some (JString "error") ->
  (exists e,
      resultConstructor json_parse result = Thrown e
      /\ (forall transfer curl_easy_strerror filesystem filepath content mapping this,
            stream_text (filesystem filepath) = Some content ->
            result_of (query transfer curl_easy_strerror "file" content mapping this)
            = Returned result ->
            result_of (predict_file transfer curl_easy_strerror filesystem json_parse
                         filepath mapping this) = Thrown e)
      /\ (forall transfer curl_easy_strerror (float : Type) (ostream_float : float -> string)
                 (data : list float) mapping this,
            (forall v, ostream_float v <> "") ->
            result_of (query transfer curl_easy_strerror "values"
                         (list_literal ostream_float data) mapping this)
            = Returned result ->
            result_of (predict_values transfer curl_easy_strerror json_parse float
                         ostream_float data (Z.of_nat (length data)) mapping this)
            = Thrown e))
  /\ forall type message : string,
      m !! "type" = Some (JString type) ->
      m !! "message" = Some (JString message) ->
      resultConstructor json_parse result
      = Thrown (runtime_error (message +:+ " (" +:+ type +:+ ")")).
Proof.
  intros Hparse Hstatus.
  assert (forall o : outcome json,
            resultConstructor json_parse result = o ->
            (exists e, o = Thrown e) ->
            exists e,
              resultConstructor json_parse result = Thrown e
              /\ (forall transfer curl_easy_strerror filesystem filepath content mapping
                         this,
                    stream_text (filesystem filepath) = Some content ->
                    result_of (query transfer curl_easy_strerror "file" content mapping this)
                    = Returned result ->
                    result_of (predict_file transfer curl_easy_strerror filesystem json_parse
                                 filepath mapping this) = Thrown e)
              /\ (forall transfer curl_easy_strerror (float : Type)
                         (ostream_float : float -> string) (data : list float) mapping this,
                    (forall v, ostream_float v <> "") ->
                    result_of (query transfer curl_easy_strerror "values"
                                 (list_literal ostream_float data) mapping this)
                    = Returned result ->
                    result_of (predict_values transfer curl_easy_strerror json_parse float
                                 ostream_float data (Z.of_nat (length data)) mapping this)
                    = Thrown e)) as Hentry.
  { intros o Ho [e ->]. exists e. split; [exact Ho|]. split.
    - intros. erewrite predict_file_decodes by eassumption. exact Ho.
    - intros. erewrite predict_values_decodes by eassumption. exact Ho. }
  split.
  - eapply Hentry; [reflexivity|].
    unfold resultConstructor, json_subscript. rewrite Hparse, Hstatus.
    cbn [outcome_bind json_eq_literal]. rewrite bool_decide_true by reflexivity.
    destruct (m !! "type") as [[]|]; cbn [outcome_bind json_get_string];
      try (eexists; reflexivity).
    destruct (m !! "message") as [[]|]; cbn [outcome_bind json_get_string];
      eexists; reflexivity.
  - intros type message Htype Hmessage.
    unfold resultConstructor, json_subscript. rewrite Hparse, Hstatus.
    cbn [outcome_bind json_eq_literal]. rewrite bool_decide_true by reflexivity.
    rewrite Htype. cbn [outcome_bind json_get_string]. rewrite Hmessage.
    cbn [outcome_bind json_get_string]. by rewrite string_app_assoc.
Qed.

Lemma resultConstructor_error_status_witness :
  demo_parse (error_text "InputError" "bad shape")
  = Some (error_document "InputError" "bad shape")
  /\ members (error_document "InputError" "bad shape") !! "status" = Some (JString "error")
  /\ resultConstructor demo_parse (error_text "InputError" "bad shape")
     = Thrown (runtime_error "bad shape (InputError)").
Proof.
  split; [reflexivity|]. split; [reflexivity|].
  exact (proj2 (resultConstructor_error_status demo_parse
                  (error_text "InputError" "bad shape")
                  (members (error_document "InputError" "bad shape")) eq_refl eq_refl)
               "InputError" "bad shape" eq_refl eq_refl).
Defined.

(** C4, as the specification words it, fails on the code: an object without
    a status field is returned with a null status added to it, and a
    document that is not an object is not returned at all. *)
Lemma document_without_status_modified :
  demo_parse "{}" = Some (JObject ∅)
  /\ resultConstructor demo_parse "{}" = Returned (JObject {[ "status" := JNull ]})
  /\ resultConstructor demo_parse "{}" <> Returned (JObject ∅)
  /\ demo_parse "[]" = Some (JArray [])
  /\ resultConstructor demo_parse "[]" = Thrown (type_error 305).
Proof.
  split; [reflexivity|]. split; [reflexivity|]. split; [|split; reflexivity].
  intros H.
  apply (f_equal (fun r => match r with
                           | Returned j => members j !! "status"
                           | _ => None
                           end)) in H.
  vm_compute in H. discriminate H.
Qed.

(** C4, amended: for every response body that parses to an object with a
    status field whose value is not the string ["error"], the decoder
    returns the document exactly as it was parsed, and so does either entry
    point that received this body. *)
Theorem resultConstructor_returns_document (json_parse : string -> option json)
    (result : string) (m : gmap string json) (status : json) :
  json_parse result = Some (JObject m) ->
  m !! "status" = Some status ->
  status <> JString "error" ->
  resultConstructor json_parse result = Returned (JObject m)
  /\ (forall transfer curl_easy_strerror filesystem filepath content mapping this,
        stream_text (filesystem filepath) = Some content ->
        result_of (query transfer curl_easy_strerror "file" content mapping this)
        = Returned result ->
        result_of (predict_file transfer curl_easy_strerror filesystem json_parse
                     filepath mapping this) = Returned (JObject m))
  /\ (forall transfer curl_easy_strerror (float : Type) (ostream_float : float -> string)
             (data : list float) mapping this,
        (forall v, ostream_float v <> "") ->
        result_of (query transfer curl_easy_strerror "values"
                     (list_literal ostream_float data) mapping this)
        = Returned result ->
        result_of (predict_values transfer curl_easy_strerror json_parse float
                     ostream_float data (Z.of_nat (length data)) mapping this)
        = Returned (JObject m)).
Proof.
  intros Hparse Hstatus Hne.
  assert (resultConstructor json_parse result = Returned (JObject m)) as Hdecode.
  { unfold resultConstructor, json_subscript. rewrite Hparse, Hstatus.
    cbn [outcome_bind].
    destruct status; cbn [json_eq_literal]; try reflexivity.
    rewrite bool_decide_false; [reflexivity|]. intros ->. by apply Hne. }
  split; [exact Hdecode|]. split.
  - intros. erewrite predict_file_decodes by eassumption. exact Hdecode.
  - intros. erewrite predict_values_decodes by eassumption. exact Hdecode.
Qed.

Lemma resultConstructor_returns_document_witness :
  demo_parse ok_text = Some ok_document
  /\ members ok_document !! "status" = Some (JString "ok")
  /\ JString "ok" <> JString "error"
  /\ resultConstructor demo_parse ok_text = Returned ok_document.
Proof.
  split; [reflexivity|]. split; [reflexivity|]. split; [discriminate|].
  refine (proj1 (resultConstructor_returns_document demo_parse ok_text (members ok_document)
                   (JString "ok") eq_refl eq_refl _)).
  discriminate.
Defined.

(** C7: for every response body that is not a well-formed document, the
    decoder fails with the parser's error instead of returning a result. *)
Theorem resultConstructor_malformed (json_parse : string -> option json) (result : string) :
  json_parse result = None ->
  resultConstructor json_parse result = Thrown parse_error.
Proof. intros Hparse. unfold resultConstructor. by rewrite Hparse. Qed.

Lemma resultConstructor_malformed_witness :
  demo_parse partial_text = None
  /\ resultConstructor demo_parse partial_text = Thrown parse_error.
Proof.
  split; [reflexivity|].
  apply (resultConstructor_malformed demo_parse partial_text). reflexivity.
Defined.

(** ** The encoding of the values *)

(** C6: for every sequence of values, [predict_values] called on the whole
    sequence encodes the data field as the list literal [[v0,v1,...,vn]]:
    the values as the stream prints them, in order, separated by commas,
    between square brackets. It reads each element once, sends the literal
    in mode ["values"], and for the empty sequence the literal is [[]]. The
    stream prints at least one character for any value. *)
Theorem predict_values_list_literal
    (transfer : easy -> CURLcode * list string) (curl_easy_strerror : CURLcode -> string)
    (json_parse : string -> option json) (float : Type) (ostream_float : float -> string)
    (data : list float) (mapping : bool) (this : PhenoAIClient) :
  (forall v, ostream_float v <> "") ->
  predict_values transfer curl_easy_strerror json_parse float ostream_float
    data (Z.of_nat (length data)) mapping this
  = (outcome_bind
       (result_of (query transfer curl_easy_strerror "values"
                     ("[" +:+ String.concat "," (map ostream_float data) +:+ "]")
                     mapping this))
       (resultConstructor json_parse),
     client_of (query transfer curl_easy_strerror "values"
                  ("[" +:+ String.concat "," (map ostream_float data) +:+ "]")
                  mapping this),
     map ev_read (seqZ 0 (Z.of_nat (length data)))
     ++ events_of (query transfer curl_easy_strerror "values"
                     ("[" +:+ String.concat "," (map ostream_float data) +:+ "]")
                     mapping this))
  /\ "[" +:+ String.concat "," (map ostream_float []) +:+ "]" = "[]"
  /\ forall (ip : string) (port : Z) (h : easy),
      ev_setopt (CURLOPT_POSTFIELDS
                   ("get_results_as_string=1&mode=values&data="
                    +:+ ("[" +:+ String.concat "," (map ostream_float data) +:+ "]")
                    +:+ "&mapping=" +:+ (if mapping then "1" else "0")))
      ∈ events_of (predict_values transfer curl_easy_strerror json_parse float ostream_float
                     data (Z.of_nat (length data)) mapping (Client ip port (EasyHandle h))).
Proof.
  intros Hprint. split; [|split].
  - apply predict_values_eq, Hprint.
  - reflexivity.
  - intros ip port h. rewrite predict_values_eq by exact Hprint.
    unfold events_of at 1. cbn [snd]. apply elem_of_app. right.
    rewrite query_live. unfold events_of, query_setopts, list_literal. cbn [snd app].
    do 4 apply list_elem_of_further. apply list_elem_of_here.
Qed.

Lemma predict_values_list_literal_witness :
  (forall v, run_ostream_float v <> "")
  /\ events_of (predict_values (transfer_answer ok_text) demo_strerror demo_parse run_float
                  run_ostream_float [f_1_5; f_0_0; f_1_0] 3 true run_client)
     = [ev_read 0; ev_read 1; ev_read 2]
       ++ events_of (query (transfer_answer ok_text) demo_strerror "values" "[1.5,0,1]"
                       true run_client).
Proof.
  assert (forall v, run_ostream_float v <> "") as Hprint by (intros []; discriminate).
  split; [exact Hprint|].
  exact (f_equal events_of
           (proj1 (predict_values_list_literal (transfer_answer ok_text) demo_strerror
                     demo_parse run_float run_ostream_float [f_1_5; f_0_0; f_1_0] true
                     run_client Hprint))).
Defined.

(** C10: for every mapping flag and every count that is zero or negative,
    [predict_values] encodes the data field as [[]] without reading any
    element of the array, and behaves as a call with an empty sequence. *)
Theorem predict_values_no_elements
    (transfer : easy -> CURLcode * list string) (curl_easy_strerror : CURLcode -> string)
    (json_parse : string -> option json) (float : Type) (ostream_float : float -> string)
    (data : list float) (nParameters : Z) (mapping : bool) (this : PhenoAIClient) :
  nParameters <= 0 ->
  predict_values transfer curl_easy_strerror json_parse float ostream_float
    data nParameters mapping this
  = (outcome_bind
       (result_of (query transfer curl_easy_strerror "values" "[]" mapping this))
       (resultConstructor json_parse),
     client_of (query transfer curl_easy_strerror "values" "[]" mapping this),
     events_of (query transfer curl_easy_strerror "values" "[]" mapping this))
  /\ predict_values transfer curl_easy_strerror json_parse float ostream_float
       data nParameters mapping this
     = predict_values transfer curl_easy_strerror json_parse float ostream_float
         [] 0 mapping this
  /\ forall i : Z,
      ev_read i ∉ events_of (predict_values transfer curl_easy_strerror json_parse float
                               ostream_float data nParameters mapping this).
Proof.
  intros Hcount.
  assert (forall (values : list float) (n : Z), n <= 0 ->
            predict_values transfer curl_easy_strerror json_parse float ostream_float
              values n mapping this
            = (outcome_bind
                 (result_of (query transfer curl_easy_strerror "values" "[]" mapping this))
                 (resultConstructor json_parse),
               client_of (query transfer curl_easy_strerror "values" "[]" mapping this),
               events_of (query transfer curl_easy_strerror "values" "[]" mapping this)))
    as Hempty.
  { intros values n Hn. unfold predict_values. rewrite seqZ_nil by exact Hn.
    cbn [for_each]. unfold bind at 1. unfold ret at 1. cbn [app].
    change ("[" +:+ "]") with "[]". unfold bind.
    by_outcome_of_query. }
  split; [by apply Hempty|]. split.
  - rewrite (Hempty data nParameters) by exact Hcount.
    by rewrite (Hempty [] 0).
  - intros i. rewrite (Hempty data nParameters) by exact Hcount.
    unfold events_of at 1. cbn [snd]. apply query_reads_nothing.
Qed.

Lemma predict_values_no_elements_witness :
  -2 <= 0
  /\ predict_values transfer_refused demo_strerror demo_parse run_float run_ostream_float
       [f_1_5; f_0_0; f_1_0] (-2) true run_client
     = predict_values transfer_refused demo_strerror demo_parse run_float run_ostream_float
         [] 0 true run_client.
Proof.
  split; [lia|].
  apply (predict_values_no_elements transfer_refused demo_strerror demo_parse run_float
           run_ostream_float [f_1_5; f_0_0; f_1_0] (-2) true run_client).
  lia.
Defined.

(** * Further properties of the code *)

(** ** [query] *)

Lemma resultConstructor_defined (json_parse : string -> option json) (result : string) :
  resultConstructor json_parse result <> Undefined.
Proof.
  unfold resultConstructor, json_subscript.
  destruct (json_parse result) as [[| | | | | | |m]|]; cbn [outcome_bind]; try discriminate.
  destruct (m !! "status") as [status|]; cbn [outcome_bind json_eq_literal]; [|discriminate].
  destruct (json_eq_literal status "error"); [|discriminate].
  destruct (m !! "type") as [[]|]; cbn [outcome_bind json_get_string]; try discriminate.
  destruct (m !! "message") as [[]|]; cbn [outcome_bind json_get_string]; discriminate.
Qed.

(** X1: when the transfer succeeds, [query] returns the pieces of the body
    joined in the order they arrived, writes nothing to the standard output,
    and releases the handle. *)
Theorem query_success_returns_body (transfer : easy -> CURLcode * list string)
    (curl_easy_strerror : CURLcode -> string)
    (mode data : string) (mapping : bool) (ip : string) (port : Z) (h : easy)
    (chunks : list string) :
  transfer (query_handle h ip port mode data mapping) = (CURLE_OK, chunks) ->
  query transfer curl_easy_strerror mode data mapping (Client ip port (EasyHandle h))
  = (Returned (String.concat "" chunks), Client ip port Released,
     query_setopts ip port mode data mapping
     ++ [ev_perform (query_handle h ip port mode data mapping) CURLE_OK; ev_cleanup]).
Proof. intros Htransfer. rewrite query_live, Htransfer. reflexivity. Qed.

Lemma query_success_returns_body_witness :
  transfer_answer ok_text (query_handle easy_fresh "127.0.0.1" 8081 "values" "[1.5,0,1]" true)
  = (CURLE_OK, [ok_text])
  /\ result_of (query (transfer_answer ok_text) demo_strerror "values" "[1.5,0,1]" true
                  run_client) = Returned ok_text.
Proof.
  split; [reflexivity|].
  exact (f_equal result_of
           (query_success_returns_body (transfer_answer ok_text) demo_strerror
              "values" "[1.5,0,1]" true "127.0.0.1" 8081 easy_fresh [ok_text] eq_refl)).
Defined.

(** X2: [query] writes to the standard output exactly when the transfer it
    performed failed, and then exactly one line. *)
Theorem query_prints_iff_failure (transfer : easy -> CURLcode * list string)
    (curl_easy_strerror : CURLcode -> string)
    (mode data : string) (mapping : bool) (ip : string) (port : Z) (h : easy) :
  List.filter is_cout
    (events_of (query transfer curl_easy_strerror mode data mapping
                  (Client ip port (EasyHandle h))))
  = if (transfer (query_handle h ip port mode data mapping)).1 =? CURLE_OK
    then []
    else [ev_cout ("curl_easy_perform() failed: "
                   +:+ curl_easy_strerror (transfer (query_handle h ip port mode data mapping)).1
                   +:+ newline)].
Proof.
  rewrite query_live. unfold events_of, query_setopts. cbn [snd].
  destruct (_ =? _); reflexivity.
Qed.

(** X3: a call of [query] performs exactly one transfer when the client
    has a live handle, and none when it has no handle. *)
Theorem query_transfer_count (transfer : easy -> CURLcode * list string)
    (curl_easy_strerror : CURLcode -> string)
    (mode data : string) (mapping : bool) (ip : string) (port : Z) (h : easy) :
  transfer_count (events_of (query transfer curl_easy_strerror mode data mapping
                               (Client ip port (EasyHandle h)))) = 1%nat
  /\ transfer_count (events_of (query transfer curl_easy_strerror mode data mapping
                                  (Client ip port NullHandle))) = 0%nat.
Proof.
  split.
  - rewrite query_live. unfold events_of, query_setopts, transfer_count. cbn [snd].
    destruct (_ =? _); reflexivity.
  - rewrite query_null. reflexivity.
Qed.

(** X4: the handle serves one request only. A query on a live handle
    leaves the client with the handle released, and a further query on the
    same client is a use of the released handle, which has no defined
    behaviour. *)
Theorem second_query_undefined (transfer : easy -> CURLcode * list string)
    (curl_easy_strerror : CURLcode -> string)
    (mode data mode' data' : string) (mapping mapping' : bool)
    (ip : string) (port : Z) (h : easy) :
  _curl (client_of (query transfer curl_easy_strerror mode data mapping
                      (Client ip port (EasyHandle h)))) = Released
  /\ result_of (query transfer curl_easy_strerror mode' data' mapping'
                  (client_of (query transfer curl_easy_strerror mode data mapping
                                (Client ip port (EasyHandle h)))))
     = Undefined.
Proof.
  rewrite query_live. unfold client_of. cbn [fst snd]. split; [reflexivity|].
  by rewrite query_released.
Qed.

(** X5: a client without a handle sends nothing: [query] returns the empty
    buffer and leaves the client as it is, and since the empty text is not a
    document, [predict_file] on a path whose stream yields a text ends with
    the parser's error. *)
Theorem query_without_handle (transfer : easy -> CURLcode * list string)
    (curl_easy_strerror : CURLcode -> string)
    (filesystem : string -> file_state) (json_parse : string -> option json)
    (mode data filepath content : string) (mapping : bool) (ip : string) (port : Z) :
  json_parse "" = None ->
  stream_text (filesystem filepath) = Some content ->
  query transfer curl_easy_strerror mode data mapping (Client ip port NullHandle)
  = (Returned "", Client ip port NullHandle, [])
  /\ predict_file transfer curl_easy_strerror filesystem json_parse filepath mapping
       (Client ip port NullHandle)
     = (Thrown parse_error, Client ip port NullHandle, [ev_ifstream filepath]).
Proof.
  intros Hparse Htext. split; [apply query_null|].
  rewrite (predict_file_eq _ _ _ _ filepath content) by exact Htext.
  rewrite query_null. unfold result_of, client_of, events_of.
  cbn [fst snd outcome_bind]. unfold resultConstructor. by rewrite Hparse.
Qed.

Lemma query_without_handle_witness :
  demo_parse "" = None
  /\ stream_text (two_files "/data/events.txt") = Some "1.5 0.0 1.0"
  /\ predict_file transfer_refused demo_strerror two_files demo_parse "/data/events.txt" true
       (PhenoAIClient_new false "127.0.0.1" 8081)
     = (Thrown parse_error, PhenoAIClient_new false "127.0.0.1" 8081,
        [ev_ifstream "/data/events.txt"]).
Proof.
  split; [reflexivity|]. split; [reflexivity|].
  exact (proj2 (query_without_handle transfer_refused demo_strerror two_files demo_parse
                  "file" "" "/data/events.txt" "1.5 0.0 1.0" true "127.0.0.1" 8081
                  eq_refl eq_refl)).
Defined.

(** X6: [query] puts the mode and the data into the body as they are, so
    the body does not tell where one field ends: a mode that ends in
    [&data=a] with data [b] gives the same call as the mode alone with data
    [a&data=b]. *)
Theorem query_fields_not_delimited (transfer : easy -> CURLcode * list string)
    (curl_easy_strerror : CURLcode -> string)
    (mode a b : string) (mapping : bool) (this : PhenoAIClient) :
  query transfer curl_easy_strerror (mode +:+ "&data=" +:+ a) b mapping this
  = query transfer curl_easy_strerror mode (a +:+ "&data=" +:+ b) mapping this.
Proof.
  assert (form_body (mode +:+ "&data=" +:+ a) b mapping
          = form_body mode (a +:+ "&data=" +:+ b) mapping) as Hbody.
  { unfold form_body. by rewrite !string_app_assoc. }
  destruct this as [ip port [|h|]].
  - by rewrite !query_null.
  - rewrite !query_live. unfold query_handle, query_setopts. by rewrite Hbody.
  - by rewrite !query_released.
Qed.

(** X7: what [query] returns does not depend on how the body was cut into
    pieces on its way: a transfer that delivers the same bytes in one piece
    gives the same call. *)
Theorem query_chunking_irrelevant (transfer transfer' : easy -> CURLcode * list string)
    (curl_easy_strerror : CURLcode -> string)
    (mode data : string) (mapping : bool) (ip : string) (port : Z) (h : easy) :
  transfer' (query_handle h ip port mode data mapping)
  = ((transfer (query_handle h ip port mode data mapping)).1,
     [String.concat "" (transfer (query_handle h ip port mode data mapping)).2]) ->
  query transfer' curl_easy_strerror mode data mapping (Client ip port (EasyHandle h))
  = query transfer curl_easy_strerror mode data mapping (Client ip port (EasyHandle h)).
Proof. intros Htransfer. rewrite !query_live, Htransfer. reflexivity. Qed.

Lemma query_chunking_irrelevant_witness :
  transfer_answer ok_text (query_handle easy_fresh "127.0.0.1" 8081 "file" "" true)
  = ((transfer_pieces (query_handle easy_fresh "127.0.0.1" 8081 "file" "" true)).1,
     [String.concat "" (transfer_pieces (query_handle easy_fresh "127.0.0.1" 8081 "file" "" true)).2])
  /\ query (transfer_answer ok_text) demo_strerror "file" "" true run_client
     = query transfer_pieces demo_strerror "file" "" true run_client.
Proof.
  split; [reflexivity|].
  exact (query_chunking_irrelevant transfer_pieces (transfer_answer ok_text) demo_strerror
           "file" "" true "127.0.0.1" 8081 easy_fresh eq_refl).
Defined.

(** ** [resultConstructor] *)

Lemma json_eq_literal_true (v : json) (literal : string) :
  json_eq_literal v literal = true <-> v = JString literal.
Proof.
  destruct v; cbn [json_eq_literal]; try (split; [discriminate|intros [=]]).
  rewrite bool_decide_eq_true. split; [by intros ->|by intros [= ->]].
Qed.

(** X8: a document that is null, or an object without a status member, is
    not returned as it was parsed: the decoder returns an object with the
    members of the document and a null status added. *)
Theorem resultConstructor_adds_null_status (json_parse : string -> option json)
    (result : string) (doc : json) :
  json_parse result = Some doc ->
  doc = JNull \/ (exists m, doc = JObject m /\ m !! "status" = None) ->
  resultConstructor json_parse result
  = Returned (JObject (<["status" := JNull]> (members doc)))
  /\ forall key : string,
      key <> "status" ->
      (<["status" := JNull]> (members doc)) !! key = members doc !! key.
Proof.
  intros Hparse Hdoc. split.
  - unfold resultConstructor, json_subscript. rewrite Hparse.
    destruct Hdoc as [->|(m & -> & Hstatus)].
    + reflexivity.
    + rewrite Hstatus. reflexivity.
  - intros key Hkey. by rewrite lookup_insert_ne.
Qed.

Lemma resultConstructor_adds_null_status_witness :
  demo_parse "{}" = Some (JObject ∅)
  /\ resultConstructor demo_parse "{}" = Returned (JObject (<["status" := JNull]> ∅)).
Proof.
  split; [reflexivity|].
  refine (proj1 (resultConstructor_adds_null_status demo_parse "{}" (JObject ∅) eq_refl _)).
  right. exists ∅. split; reflexivity.
Defined.

(** X9: a document that is neither an object nor null (an array, a string,
    a number, a boolean) makes the decoder throw the type error of the
    subscript, whatever the document holds. *)
Theorem resultConstructor_not_an_object (json_parse : string -> option json)
    (result : string) (doc : json) :
  json_parse result = Some doc ->
  doc <> JNull ->
  (forall m, doc <> JObject m) ->
  resultConstructor json_parse result = Thrown (type_error 305).
Proof.
  intros Hparse Hnull Hobject. unfold resultConstructor, json_subscript. rewrite Hparse.
  destruct doc as [| | | | | | |m]; try reflexivity.
  - by destruct Hnull.
  - by destruct (Hobject m).
Qed.

Lemma resultConstructor_not_an_object_witness :
  demo_parse "[]" = Some (JArray [])
  /\ resultConstructor demo_parse "[]" = Thrown (type_error 305).
Proof.
  split; [reflexivity|].
  apply (resultConstructor_not_an_object demo_parse "[]" (JArray []) eq_refl);
    [discriminate | intros m; discriminate].
Defined.

(** X10: an error document whose type or whose message is missing or is not
    a string does not give the runtime error: the decoder throws the type
    error of the conversion to a string. *)
Theorem resultConstructor_error_without_strings (json_parse : string -> option json)
    (result : string) (m : gmap string json) :
  json_parse result = Some (JObject m) ->
  m !! "status" = Some (JString "error") ->
  (forall s, m !! "type" <> Some (JString s)) \/ (forall s, m !! "message" <> Some (JString s)) ->
  resultConstructor json_parse result = Thrown (type_error 302).
Proof.
  intros Hparse Hstatus Hmissing. unfold resultConstructor, json_subscript.
  rewrite Hparse, Hstatus.
  cbn [outcome_bind json_eq_literal]. rewrite bool_decide_true by reflexivity.
  destruct (m !! "type") as [[| | | | |type| |]|] eqn:Htype;
    cbn [outcome_bind json_get_string]; try reflexivity.
  destruct Hmissing as [Hmissing|Hmissing]; [by destruct (Hmissing type)|].
  destruct (m !! "message") as [[| | | | |message| |]|] eqn:Hmessage;
    cbn [outcome_bind json_get_string]; try reflexivity.
  by destruct (Hmissing message).
Qed.

Lemma resultConstructor_error_without_strings_witness :
  demo_parse_more error_type_text
  = Some (JObject (<["status" := JString "error"]> {[ "type" := JString "InputError" ]}))
  /\ resultConstructor demo_parse_more error_type_text = Thrown (type_error 302).
Proof.
  split; [reflexivity|].
  apply (resultConstructor_error_without_strings demo_parse_more error_type_text
           (<["status" := JString "error"]> {[ "type" := JString "InputError" ]})
           eq_refl eq_refl).
  right. intros s. discriminate.
Defined.

(** X11: whatever the decoder returns is an object with a status member,
    and that status is not the string ["error"]. *)
Theorem resultConstructor_returned_has_status (json_parse : string -> option json)
    (result : string) (doc : json) :
  resultConstructor json_parse result = Returned doc ->
  exists (m : gmap string json) (status : json),
    doc = JObject m /\ m !! "status" = Some status /\ status <> JString "error".
Proof.
  unfold resultConstructor, json_subscript.
  destruct (json_parse result) as [[| | | | | | |m]|]; cbn [outcome_bind]; try discriminate.
  - intros [= <-]. exists {[ "status" := JNull ]}, JNull.
    split; [reflexivity|]. split; [apply lookup_singleton_eq|discriminate].
  - destruct (m !! "status") as [status|] eqn:Hstatus; cbn [outcome_bind].
    + destruct (json_eq_literal status "error") eqn:Herror.
      * destruct (m !! "type") as [[]|]; cbn [outcome_bind json_get_string];
          try discriminate.
        destruct (m !! "message") as [[]|]; cbn [outcome_bind json_get_string];
          discriminate.
      * intros [= <-]. exists m, status. split; [reflexivity|]. split; [exact Hstatus|].
        intros Heq. apply json_eq_literal_true in Heq. congruence.
    + cbn [json_eq_literal]. intros [= <-].
      exists (<["status" := JNull]> m), JNull.
      split; [reflexivity|]. split; [apply lookup_insert_eq|discriminate].
Qed.

Lemma resultConstructor_returned_has_status_witness :
  resultConstructor demo_parse ok_text = Returned ok_document
  /\ exists (m : gmap string json) (status : json),
      ok_document = JObject m /\ m !! "status" = Some status /\ status <> JString "error".
Proof.
  split; [reflexivity|].
  exact (resultConstructor_returned_has_status demo_parse ok_text ok_document eq_refl).
Defined.

(** X12: the decoder throws a runtime error only for an object whose status
    is ["error"] and whose type and message are strings, and its text is
    then [<message> (<type>)]. *)
Theorem runtime_error_only_for_error_status (json_parse : string -> option json)
    (result what : string) :
  resultConstructor json_parse result = Thrown (runtime_error what) ->
  exists (m : gmap string json) (type message : string),
    json_parse result = Some (JObject m)
    /\ m !! "status" = Some (JString "error")
    /\ m !! "type" = Some (JString type)
    /\ m !! "message" = Some (JString message)
    /\ what = message +:+ " (" +:+ type +:+ ")".
Proof.
  unfold resultConstructor, json_subscript.
  destruct (json_parse result) as [[| | | | | | |m]|]; cbn [outcome_bind]; try discriminate.
  destruct (m !! "status") as [status|] eqn:Hstatus; cbn [outcome_bind json_eq_literal];
    [|discriminate].
  destruct (json_eq_literal status "error") eqn:Herror; [|discriminate].
  apply json_eq_literal_true in Herror as ->.
  destruct (m !! "type") as [[| | | | |type| |]|] eqn:Htype;
    cbn [outcome_bind json_get_string]; try discriminate.
  destruct (m !! "message") as [[| | | | |message| |]|] eqn:Hmessage;
    cbn [outcome_bind json_get_string]; try discriminate.
  intros [= Hwhat]. exists m, type, message.
  split; [reflexivity|]. split; [exact Hstatus|]. split; [exact Htype|].
  split; [exact Hmessage|]. rewrite <- Hwhat. apply string_app_assoc.
Qed.

Lemma runtime_error_only_for_error_status_witness :
  resultConstructor demo_parse (error_text "InputError" "bad shape")
  = Thrown (runtime_error "bad shape (InputError)")
  /\ exists (m : gmap string json) (type message : string),
      demo_parse (error_text "InputError" "bad shape") = Some (JObject m)
      /\ m !! "status" = Some (JString "error")
      /\ m !! "type" = Some (JString type)
      /\ m !! "message" = Some (JString message)
      /\ "bad shape (InputError)" = message +:+ " (" +:+ type +:+ ")".
Proof.
  split; [reflexivity|].
  exact (runtime_error_only_for_error_status demo_parse
           (error_text "InputError" "bad shape") "bad shape (InputError)" eq_refl).
Defined.

(** ** [predict_values] *)

Lemma for_each_ext {A : Type} (range : list Z) (body1 body2 : Z -> A -> M A)
    (acc : A) (this : PhenoAIClient) :
  (forall i, i ∈ range -> forall acc this, body1 i acc this = body2 i acc this) ->
  for_each range body1 acc this = for_each range body2 acc this.
Proof.
  revert acc this. induction range as [|i range IH]; intros acc this Hbody; [reflexivity|].
  cbn [for_each]. unfold bind. rewrite (Hbody i) by apply list_elem_of_here.
  destruct (body2 i acc this) as [[[acc'| |] this'] t]; try reflexivity.
  rewrite IH; [reflexivity|]. intros j Hj. apply Hbody. by apply list_elem_of_further.
Qed.

Lemma array_read_take {A : Type} (data : list A) (n i : Z) (this : PhenoAIClient) :
  0 <= i < n ->
  array_read (take (Z.to_nat n) data) i this = array_read data i this.
Proof.
  intros Hi. unfold array_read.
  assert ((0 <=? i) = true) as -> by (apply Z.leb_le; lia).
  rewrite lookup_take_lt by lia. reflexivity.
Qed.

Section Loop.
Variable float : Type.
Variable ostream_float : float -> string.


(** With a count beyond the end of the array, the loop reads the elements
    there are and then reads past the end. *)
Lemma values_loop_beyond (done rest : list float) (extra : Z) (datalist : string)
    (this : PhenoAIClient) :
  0 < extra ->
  for_each (seqZ (Z.of_nat (length done)) (Z.of_nat (length rest) + extra))
    (fun i datalist =>
       x <- array_read (done ++ rest) i ;;
       ret ((if bool_decide (datalist <> "[") then datalist +:+ "," else datalist)
            +:+ ostream_float x))
    datalist this
  = (Undefined, this, map ev_read (seqZ (Z.of_nat (length done)) (Z.of_nat (length rest)))).
Proof.
  intros Hextra. revert done datalist.
  induction rest as [|x rest IH]; intros done datalist.
  - rewrite seqZ_cons by (cbn [length]; lia).
    cbn [for_each]. unfold bind at 1. unfold bind at 1. unfold array_read at 1.
    assert ((0 <=? Z.of_nat (length done)) = true) as -> by (apply Z.leb_le; lia).
    rewrite Nat2Z.id, app_nil_r. rewrite lookup_ge_None_2 by lia. reflexivity.
  - rewrite (seqZ_cons (Z.of_nat (length done))) by (cbn [length]; lia).
    rewrite (seqZ_cons (Z.of_nat (length done)) (Z.of_nat (length (x :: rest))))
      by (cbn [length]; lia).
    replace (Z.succ (Z.of_nat (length done))) with (Z.of_nat (length (done ++ [x])))
      by (rewrite length_app; cbn [length]; lia).
    replace (Z.pred (Z.of_nat (length (x :: rest)) + extra))
      with (Z.of_nat (length rest) + extra) by (cbn [length]; lia).
    replace (Z.pred (Z.of_nat (length (x :: rest)))) with (Z.of_nat (length rest))
      by (cbn [length]; lia).
    cbn [for_each map]. unfold bind at 1. unfold bind at 1. unfold array_read at 1.
    assert ((0 <=? Z.of_nat (length done)) = true) as -> by (apply Z.leb_le; lia).
    rewrite Nat2Z.id. rewrite list_lookup_middle by reflexivity.
    unfold ret at 1. cbn [app].
    specialize (IH (done ++ [x])).
    replace ((done ++ [x]) ++ rest) with (done ++ x :: rest) in IH
      by (by rewrite <- app_assoc).
    rewrite IH. reflexivity.
Qed.
End Loop.

(** X13: with a count greater than the number of elements, [predict_values]
    reads past the end of the array, which has no defined behaviour. *)
Theorem predict_values_count_beyond_array
    (transfer : easy -> CURLcode * list string) (curl_easy_strerror : CURLcode -> string)
    (json_parse : string -> option json) (float : Type) (ostream_float : float -> string)
    (data : list float) (nParameters : Z) (mapping : bool) (this : PhenoAIClient) :
  Z.of_nat (length data) < nParameters ->
  result_of (predict_values transfer curl_easy_strerror json_parse float ostream_float
               data nParameters mapping this)
  = Undefined.
Proof.
  intros Hcount. unfold predict_values. unfold bind at 1. cbv zeta.
  pose proof (values_loop_beyond float ostream_float [] data
                (nParameters - Z.of_nat (length data)) "[" this) as Hloop.
  cbn [app length] in Hloop. change (Z.of_nat 0) with 0 in Hloop.
  replace (Z.of_nat (length data) + (nParameters - Z.of_nat (length data)))
    with nParameters in Hloop by lia.
  rewrite Hloop by lia. reflexivity.
Qed.

Lemma predict_values_count_beyond_array_witness :
  Z.of_nat (length [f_1_5; f_0_0; f_1_0]) < 4
  /\ result_of (predict_values (transfer_answer ok_text) demo_strerror demo_parse run_float
                  run_ostream_float [f_1_5; f_0_0; f_1_0] 4 true run_client)
     = Undefined.
Proof.
  split; [cbn [length]; lia|].
  apply (predict_values_count_beyond_array (transfer_answer ok_text) demo_strerror
           demo_parse run_float run_ostream_float [f_1_5; f_0_0; f_1_0] 4 true run_client).
  cbn [length]. lia.
Defined.

(** X14: with a count within the array, [predict_values] reads and sends
    the first [nParameters] elements only: the data field is the list
    literal of that prefix, and no later element is read. *)
Theorem predict_values_sends_prefix
    (transfer : easy -> CURLcode * list string) (curl_easy_strerror : CURLcode -> string)
    (json_parse : string -> option json) (float : Type) (ostream_float : float -> string)
    (data : list float) (nParameters : Z) (mapping : bool) (this : PhenoAIClient) :
  (forall v, ostream_float v <> "") ->
  0 <= nParameters <= Z.of_nat (length data) ->
  predict_values transfer curl_easy_strerror json_parse float ostream_float
    data nParameters mapping this
  = (outcome_bind
       (result_of (query transfer curl_easy_strerror "values"
                     (list_literal ostream_float (take (Z.to_nat nParameters) data))
                     mapping this))
       (resultConstructor json_parse),
     client_of (query transfer curl_easy_strerror "values"
                  (list_literal ostream_float (take (Z.to_nat nParameters) data))
                  mapping this),
     map ev_read (seqZ 0 nParameters)
     ++ events_of (query transfer curl_easy_strerror "values"
                     (list_literal ostream_float (take (Z.to_nat nParameters) data))
                     mapping this)).
Proof.
  intros Hprint Hcount.
  assert (Z.of_nat (length (take (Z.to_nat nParameters) data)) = nParameters) as Hlength
    by (rewrite length_take_le; lia).
  pose proof (predict_values_eq transfer curl_easy_strerror json_parse float ostream_float
                (take (Z.to_nat nParameters) data) mapping this Hprint) as Hprefix.
  rewrite Hlength in Hprefix. rewrite <- Hprefix.
  unfold predict_values. unfold bind at 1 3.
  rewrite (for_each_ext (seqZ 0 nParameters) _
             (fun i datalist =>
                let datalist := if bool_decide (datalist <> "[")
                                then datalist +:+ "," else datalist in
                x <- array_read (take (Z.to_nat nParameters) data) i ;;
                let buff := ostream_float x in
                ret (datalist +:+ buff))); [reflexivity|].
  intros i Hi acc this'. apply elem_of_seqZ in Hi. cbv zeta. unfold bind.
  rewrite array_read_take by lia. reflexivity.
Qed.

Lemma predict_values_sends_prefix_witness :
  (forall v, run_ostream_float v <> "")
  /\ 0 <= 2 <= Z.of_nat (length [f_1_5; f_0_0; f_1_0])
  /\ events_of (predict_values (transfer_answer ok_text) demo_strerror demo_parse run_float
                  run_ostream_float [f_1_5; f_0_0; f_1_0] 2 true run_client)
     = [ev_read 0; ev_read 1]
       ++ events_of (query (transfer_answer ok_text) demo_strerror "values" "[1.5,0]"
                       true run_client).
Proof.
  assert (forall v, run_ostream_float v <> "") as Hprint by (intros []; discriminate).
  assert (0 <= 2 <= Z.of_nat (length [f_1_5; f_0_0; f_1_0])) as Hcount
    by (cbn [length]; lia).
  split; [exact Hprint|]. split; [exact Hcount|].
  exact (f_equal events_of
           (predict_values_sends_prefix (transfer_answer ok_text) demo_strerror
              demo_parse run_float run_ostream_float [f_1_5; f_0_0; f_1_0] 2 true
              run_client Hprint Hcount)).
Defined.

(** ** [predict_file] *)

(** X15: for a file that can be read and holds no NUL character,
    [predict_file] sends its contents as they are in the data field, in mode
    ["file"], and its outcome is the decoder's on what [query] returns. (The
    body is handed to libcurl as a C string, which a NUL character would
    end.) *)
Theorem predict_file_sends_contents
    (transfer : easy -> CURLcode * list string) (curl_easy_strerror : CURLcode -> string)
    (filesystem : string -> file_state) (json_parse : string -> option json)
    (filepath content : string) (mapping : bool) (ip : string) (port : Z) (h : easy) :
  filesystem filepath = readable content ->
  nul_free content = true ->
  predict_file transfer curl_easy_strerror filesystem json_parse filepath mapping
    (Client ip port (EasyHandle h))
  = (resultConstructor json_parse
       (String.concat "" (transfer (query_handle h ip port "file" content mapping)).2),
     Client ip port Released,
     ev_ifstream filepath
     :: events_of (query transfer curl_easy_strerror "file" content mapping
                     (Client ip port (EasyHandle h))))
  /\ ev_setopt (CURLOPT_POSTFIELDS
                  ("get_results_as_string=1&mode=file&data=" +:+ content +:+ "&mapping="
                   +:+ (if mapping then "1" else "0")))
     ∈ events_of (predict_file transfer curl_easy_strerror filesystem json_parse
                    filepath mapping (Client ip port (EasyHandle h)))
  /\ nul_free ("get_results_as_string=1&mode=file&data=" +:+ content +:+ "&mapping="
               +:+ (if mapping then "1" else "0")) = true.
Proof.
  intros Hfile Hnul.
  assert (stream_text (filesystem filepath) = Some content) as Htext by (by rewrite Hfile).
  rewrite (predict_file_eq _ _ _ _ filepath content) by exact Htext.
  split; [|split].
  - rewrite query_live. reflexivity.
  - rewrite query_live. unfold events_of, query_setopts. cbn [snd app].
    do 5 apply list_elem_of_further. apply list_elem_of_here.
  - change (nul_free ("get_results_as_string=1&mode=file&data=" +:+ content +:+ "&mapping="
                      +:+ (if mapping then "1" else "0")))
      with (nul_free (content +:+ "&mapping=" +:+ (if mapping then "1" else "0"))).
    clear Hfile Htext. induction content as [|c content IH].
    + by destruct mapping.
    + rewrite string_app_cons. cbn [nul_free] in Hnul |- *.
      apply andb_true_iff in Hnul as [-> Hnul]. by rewrite IH.
Qed.

Lemma predict_file_sends_contents_witness :
  two_files "/data/events.txt" = readable "1.5 0.0 1.0"
  /\ nul_free "1.5 0.0 1.0" = true
  /\ ev_setopt (CURLOPT_POSTFIELDS
                  "get_results_as_string=1&mode=file&data=1.5 0.0 1.0&mapping=0")
     ∈ events_of (predict_file (transfer_answer ok_text) demo_strerror two_files demo_parse
                    "/data/events.txt" false run_client).
Proof.
  split; [reflexivity|]. split; [reflexivity|].
  exact (proj1 (proj2 (predict_file_sends_contents (transfer_answer ok_text) demo_strerror
                         two_files demo_parse "/data/events.txt" "1.5 0.0 1.0" false
                         "127.0.0.1" 8081 easy_fresh eq_refl eq_refl))).
Defined.

(** X16: a file that cannot be opened and a file that is empty are the same
    to [predict_file]: the same request, the same outcome, the same client
    afterwards. *)
Theorem predict_file_missing_as_empty
    (transfer : easy -> CURLcode * list string) (curl_easy_strerror : CURLcode -> string)
    (filesystem : string -> file_state) (json_parse : string -> option json)
    (missing empty : string) (mapping : bool) (this : PhenoAIClient) :
  filesystem missing = cannot_open ->
  filesystem empty = readable "" ->
  result_of (predict_file transfer curl_easy_strerror filesystem json_parse
               missing mapping this)
  = result_of (predict_file transfer curl_easy_strerror filesystem json_parse
                 empty mapping this)
  /\ client_of (predict_file transfer curl_easy_strerror filesystem json_parse
                  missing mapping this)
     = client_of (predict_file transfer curl_easy_strerror filesystem json_parse
                    empty mapping this)
  /\ tail (events_of (predict_file transfer curl_easy_strerror filesystem json_parse
                        missing mapping this))
     = tail (events_of (predict_file transfer curl_easy_strerror filesystem json_parse
                          empty mapping this)).
Proof.
  intros Hmissing Hempty.
  rewrite (predict_file_eq _ _ _ _ missing "") by (by rewrite Hmissing).
  rewrite (predict_file_eq _ _ _ _ empty "") by (by rewrite Hempty).
  repeat split.
Qed.

Lemma predict_file_missing_as_empty_witness :
  two_files "/data/none.txt" = cannot_open
  /\ two_files "/data/empty.txt" = readable ""
  /\ result_of (predict_file (transfer_answer ok_text) demo_strerror two_files demo_parse
                  "/data/none.txt" true run_client)
     = result_of (predict_file (transfer_answer ok_text) demo_strerror two_files demo_parse
                    "/data/empty.txt" true run_client).
Proof.
  split; [reflexivity|]. split; [reflexivity|].
  exact (proj1 (predict_file_missing_as_empty (transfer_answer ok_text) demo_strerror
                  two_files demo_parse "/data/none.txt" "/data/empty.txt" true run_client
                  eq_refl eq_refl)).
Defined.

(** X17: on a path whose stream yields a text, [predict_file] has no defined
    behaviour exactly when the handle of the client was already released; on
    a path that opens and cannot be read, it ends with the stream's failure
    whatever the handle is. *)
Theorem predict_file_undefined_iff_released
    (transfer : easy -> CURLcode * list string) (curl_easy_strerror : CURLcode -> string)
    (filesystem : string -> file_state) (json_parse : string -> option json)
    (filepath : string) (mapping : bool) (this : PhenoAIClient) :
  (forall content : string,
      stream_text (filesystem filepath) = Some content ->
      (result_of (predict_file transfer curl_easy_strerror filesystem json_parse
                    filepath mapping this) = Undefined
       <-> _curl this = Released))
  /\ (stream_text (filesystem filepath) = None ->
      result_of (predict_file transfer curl_easy_strerror filesystem json_parse
                   filepath mapping this) = Thrown ios_failure).
Proof.
  split.
  - intros content Htext.
    rewrite (predict_file_eq _ _ _ _ filepath content) by exact Htext.
    unfold result_of at 1. cbn [fst].
    destruct this as [ip port [|h|]]; cbn [_curl].
    + rewrite query_null. unfold result_of. cbn [fst outcome_bind].
      split; [|discriminate]. intros H. by apply resultConstructor_defined in H.
    + rewrite query_live. unfold result_of. cbn [fst outcome_bind].
      split; [|discriminate]. intros H. by apply resultConstructor_defined in H.
    + rewrite query_released. split; reflexivity.
  - intros Htext. by rewrite predict_file_cannot_read by exact Htext.
Qed.

Lemma predict_file_undefined_iff_released_witness :
  stream_text (two_files "/data/events.txt") = Some "1.5 0.0 1.0"
  /\ (result_of (predict_file (transfer_answer ok_text) demo_strerror two_files demo_parse
                   "/data/events.txt" true run_client) = Undefined
      <-> _curl run_client = Released)
  /\ stream_text (two_files "/data") = None
  /\ result_of (predict_file (transfer_answer ok_text) demo_strerror two_files demo_parse
                  "/data" true (Client "127.0.0.1" 8081 Released)) = Thrown ios_failure.
Proof.
  split; [reflexivity|]. split.
  - exact (proj1 (predict_file_undefined_iff_released (transfer_answer ok_text) demo_strerror
                    two_files demo_parse "/data/events.txt" true run_client)
             "1.5 0.0 1.0" eq_refl).
  - split; [reflexivity|].
    exact (proj2 (predict_file_undefined_iff_released (transfer_answer ok_text) demo_strerror
                    two_files demo_parse "/data" true (Client "127.0.0.1" 8081 Released))
             eq_refl).
Defined.

(** ** The server address *)




Lemma run_setter_address (c : setter_call) (ip : string) (port : Z) (curl : CURL) :
  run_setter c (Client ip port curl)
  = (Returned tt, Client (last_ip ip [c]) (last_port port [c]) curl, []).
Proof. destruct c; reflexivity. Qed.

(** X19: after any sequence of calls of the two setters, the client holds
    the last address and the last port that were set (those it had before,
    if none was), its handle is untouched, and nothing else happened; the
    getters return these values. *)
Theorem setters_last_write_wins (calls : list setter_call) (ip : string) (port : Z)
    (curl : CURL) :
  run_setters calls (Client ip port curl)
  = (Returned tt, Client (last_ip ip calls) (last_port port calls) curl, [])
  /\ result_of (get_server_ip (client_of (run_setters calls (Client ip port curl))))
     = Returned (last_ip ip calls)
  /\ result_of (get_server_port (client_of (run_setters calls (Client ip port curl))))
     = Returned (last_port port calls).
Proof.
  assert (run_setters calls (Client ip port curl)
          = (Returned tt, Client (last_ip ip calls) (last_port port calls) curl, []))
    as Hrun.
  { revert ip port. induction calls as [|c calls IH]; intros ip port; [reflexivity|].
    cbn [run_setters]. unfold bind. rewrite run_setter_address, IH.
    destruct c; reflexivity. }
  split; [exact Hrun|]. rewrite Hrun. split; reflexivity.
Qed.

(** ** [main] of [run.cpp] *)

(** X20: whatever the server does, the program of [run.cpp] reads its three
    values, makes one query for them (one transfer if the handle could be
    created, none otherwise) and gives the buffer to the decoder: it then
    either prints the document with an indentation of 4 and returns 0, or
    ends by the decoder's exception without printing it. It never reads
    past its array and never uses a released handle. *)
Theorem main_outcome
    (transfer : easy -> CURLcode * list string) (curl_easy_strerror : CURLcode -> string)
    (json_parse : string -> option json) (float : Type) (ostream_float : float -> string)
    (json_dump : json -> Z -> string) (init_ok : bool)
    (float_1_5 float_0_0 float_1_0 : float) :
  (forall v, ostream_float v <> "") ->
  exists (buffer : string) (this' : PhenoAIClient) (t : list event),
    query transfer curl_easy_strerror "values"
      ("[" +:+ ostream_float float_1_5 +:+ "," +:+ ostream_float float_0_0 +:+ ","
       +:+ ostream_float float_1_0 +:+ "]")
      true (PhenoAIClient_new init_ok "127.0.0.1" 8081)
    = (Returned buffer, this', t)
    /\ transfer_count t = (if init_ok then 1%nat else 0%nat)
    /\ main transfer curl_easy_strerror json_parse float ostream_float json_dump init_ok
         float_1_5 float_0_0 float_1_0
       = match resultConstructor json_parse buffer with
         | Returned result =>
             (Returned 0, this',
              [ev_read 0; ev_read 1; ev_read 2] ++ t
              ++ [ev_cout (json_dump result 4 +:+ newline)])
         | Thrown e => (Thrown e, this', [ev_read 0; ev_read 1; ev_read 2] ++ t)
         | Undefined => (Undefined, this', [ev_read 0; ev_read 1; ev_read 2] ++ t)
         end
    /\ result_of (main transfer curl_easy_strerror json_parse float ostream_float json_dump
                    init_ok float_1_5 float_0_0 float_1_0) <> Undefined.
Proof.
  intros Hprint.
  assert (exists buffer this' t,
            query transfer curl_easy_strerror "values"
              (list_literal ostream_float [float_1_5; float_0_0; float_1_0])
              true (PhenoAIClient_new init_ok "127.0.0.1" 8081)
            = (Returned buffer, this', t)
            /\ transfer_count t = (if init_ok then 1%nat else 0%nat))
    as (buffer & this' & t & Hquery & Hcount).
  { destruct init_ok.
    - change (PhenoAIClient_new true "127.0.0.1" 8081)
        with (Client "127.0.0.1" 8081 (EasyHandle easy_fresh)).
      rewrite query_live. eexists _, _, _. split; [reflexivity|].
      unfold transfer_count, query_setopts. destruct (_ =? _); reflexivity.
    - change (PhenoAIClient_new false "127.0.0.1" 8081)
        with (Client "127.0.0.1" 8081 NullHandle).
      rewrite query_null. eexists _, _, _. split; reflexivity. }
  assert (main transfer curl_easy_strerror json_parse float ostream_float json_dump init_ok
            float_1_5 float_0_0 float_1_0
          = match resultConstructor json_parse buffer with
            | Returned result =>
                (Returned 0, this',
                 [ev_read 0; ev_read 1; ev_read 2] ++ t
                 ++ [ev_cout (json_dump result 4 +:+ newline)])
            | Thrown e => (Thrown e, this', [ev_read 0; ev_read 1; ev_read 2] ++ t)
            | Undefined => (Undefined, this', [ev_read 0; ev_read 1; ev_read 2] ++ t)
            end) as Hmain.
  { unfold main. cbv zeta. unfold bind at 1.
    change 3 with (Z.of_nat (length [float_1_5; float_0_0; float_1_0])).
    rewrite predict_values_eq by exact Hprint. rewrite Hquery.
    unfold result_of, client_of, events_of. cbn [fst snd outcome_bind length].
    change (seqZ 0 (Z.of_nat 3)) with [0; 1; 2]. cbn [map].
    destruct (resultConstructor json_parse buffer) as [result|e|]; reflexivity. }
  assert (list_literal ostream_float [float_1_5; float_0_0; float_1_0]
          = "[" +:+ ostream_float float_1_5 +:+ "," +:+ ostream_float float_0_0 +:+ ","
            +:+ ostream_float float_1_0 +:+ "]") as Hliteral.
  { unfold list_literal. cbn [map String.concat]. by rewrite !string_app_assoc. }
  rewrite Hliteral in Hquery.
  exists buffer, this', t. split; [exact Hquery|]. split; [exact Hcount|].
  split; [exact Hmain|]. rewrite Hmain.
  pose proof (resultConstructor_defined json_parse buffer) as Hdefined.
  destruct (resultConstructor json_parse buffer); [discriminate|discriminate|by destruct Hdefined].
Qed.

Lemma main_outcome_witness :
  (forall v, run_ostream_float v <> "")
  /\ exists (buffer : string) (this' : PhenoAIClient) (t : list event),
      query (transfer_answer ok_text) demo_strerror "values" "[1.5,0,1]" true run_client
      = (Returned buffer, this', t)
      /\ transfer_count t = 1%nat
      /\ main (transfer_answer ok_text) demo_strerror demo_parse run_float run_ostream_float
           demo_dump true f_1_5 f_0_0 f_1_0
         = match resultConstructor demo_parse buffer with
           | Returned result =>
               (Returned 0, this',
                [ev_read 0; ev_read 1; ev_read 2] ++ t ++ [ev_cout (demo_dump result 4 +:+ newline)])
           | Thrown e => (Thrown e, this', [ev_read 0; ev_read 1; ev_read 2] ++ t)
           | Undefined => (Undefined, this', [ev_read 0; ev_read 1; ev_read 2] ++ t)
           end
      /\ result_of (main (transfer_answer ok_text) demo_strerror demo_parse run_float
                      run_ostream_float demo_dump true f_1_5 f_0_0 f_1_0)
         <> Undefined.
Proof.
  assert (forall v, run_ostream_float v <> "") as Hprint by (intros []; discriminate).
  split; [exact Hprint|].
  exact (main_outcome (transfer_answer ok_text) demo_strerror demo_parse run_float
           run_ostream_float demo_dump true f_1_5 f_0_0 f_1_0 Hprint).
Defined.

(** ** The data field determines the values *)

Lemma string_length_app (s t : string) :
  String.length (s +:+ t) = (String.length s + String.length t)%nat.
Proof.
  induction s as [|a s IH]; [reflexivity|].
  rewrite string_app_cons. cbn [String.length]. by rewrite IH.
Qed.

Lemma string_app_inv_r (s1 s2 u : string) : s1 +:+ u = s2 +:+ u -> s1 = s2.
Proof.
  revert s2. induction s1 as [|a s1 IH]; intros [|b s2] H.
  - reflexivity.
  - apply (f_equal String.length) in H.
    rewrite !string_length_app in H. cbn [String.length] in H. lia.
  - apply (f_equal String.length) in H.
    rewrite !string_length_app in H. cbn [String.length] in H. lia.
  - rewrite !string_app_cons in H. injection H as -> H. by rewrite (IH s2 H).
Qed.

(** Two texts without a comma, each followed by nothing or by a comma and
    more, are the same when the whole texts are. *)
Lemma comma_split (x y s t : string) :
  comma_free x = true -> comma_free y = true ->
  (s = "" \/ exists s', s = String "," s') ->
  (t = "" \/ exists t', t = String "," t') ->
  x +:+ s = y +:+ t -> x = y /\ s = t.
Proof.
  revert y. induction x as [|a x IH]; intros [|b y] Hx Hy Hs Ht H.
  - split; [reflexivity|exact H].
  - change ("" +:+ s) with s in H. rewrite string_app_cons in H.
    destruct Hs as [->|[s' ->]]; [discriminate H|].
    injection H as <- _. discriminate Hy.
  - change ("" +:+ t) with t in H. rewrite string_app_cons in H.
    destruct Ht as [->|[t' ->]]; [discriminate H|].
    injection H as -> _. discriminate Hx.
  - rewrite !string_app_cons in H. injection H as -> H.
    cbn [comma_free] in Hx, Hy.
    apply andb_true_iff in Hx as [_ Hx]. apply andb_true_iff in Hy as [_ Hy].
    destruct (IH y Hx Hy Hs Ht H) as [-> ->]. split; reflexivity.
Qed.

Lemma concat_comma_cons (x : string) (l : list string) :
  String.concat "," (x :: l)
  = x +:+ match l with
          | [] => ""
          | _ => String "," (String.concat "," l)
          end.
Proof. destruct l; [by rewrite string_app_nil_r|reflexivity]. Qed.

Lemma concat_comma_inj (l1 l2 : list string) :
  Forall (fun s => s <> "" /\ comma_free s = true) l1 ->
  Forall (fun s => s <> "" /\ comma_free s = true) l2 ->
  String.concat "," l1 = String.concat "," l2 ->
  l1 = l2.
Proof.
  revert l2. induction l1 as [|x l1 IH]; intros [|y l2] H1 H2 H.
  - reflexivity.
  - exfalso. symmetry in H. revert H. apply concat_nonempty; [done|].
    eapply Forall_impl; [exact H2|]. by intros s [Hs _].
  - exfalso. revert H. apply concat_nonempty; [done|].
    eapply Forall_impl; [exact H1|]. by intros s [Hs _].
  - apply Forall_cons in H1 as [[_ Hx] H1]. apply Forall_cons in H2 as [[_ Hy] H2].
    rewrite !concat_comma_cons in H.
    apply comma_split in H as [-> Htail]; [|done|done|..].
    + f_equal. destruct l1 as [|x1 l1], l2 as [|y2 l2]; try discriminate Htail.
      * reflexivity.
      * injection Htail as Htail. by apply IH.
    + destruct l1; [by left|right; by eexists].
    + destruct l2; [by left|right; by eexists].
Qed.

(** The POST fields that [predict_values] sets on a live handle. *)
Lemma predict_values_postfields
    (transfer : easy -> CURLcode * list string) (curl_easy_strerror : CURLcode -> string)
    (json_parse : string -> option json) (float : Type) (ostream_float : float -> string)
    (data : list float) (mapping : bool) (ip : string) (port : Z) (h : easy) (body : string) :
  (forall v, ostream_float v <> "") ->
  ev_setopt (CURLOPT_POSTFIELDS body)
    ∈ events_of (predict_values transfer curl_easy_strerror json_parse float ostream_float
                   data (Z.of_nat (length data)) mapping (Client ip port (EasyHandle h))) ->
  body = form_body "values" (list_literal ostream_float data) mapping.
Proof.
  intros Hprint. rewrite predict_values_eq by exact Hprint.
  unfold events_of at 1. cbn [snd]. rewrite query_live.
  unfold events_of, query_setopts. cbn [snd].
  intros [Hin|Hin]%elem_of_app.
  - apply list_elem_of_fmap in Hin as (i & Hi & _). discriminate Hi.
  - destruct (_ =? _); cbn [app] in Hin;
      repeat (apply elem_of_cons in Hin as [Hin|Hin];
              [first [discriminate Hin | by injection Hin]|]);
      by apply elem_of_nil in Hin.
Qed.

(** X21: the data field tells the printed values apart. When the stream
    prints every value as a text that is not empty and has no comma in it,
    two calls of [predict_values] that set the same POST fields were given
    sequences of values that print the same, one by one. *)
Theorem values_encoding_unambiguous
    (transfer : easy -> CURLcode * list string) (curl_easy_strerror : CURLcode -> string)
    (json_parse : string -> option json) (float : Type) (ostream_float : float -> string)
    (data1 data2 : list float) (mapping : bool)
    (ip1 ip2 : string) (port1 port2 : Z) (h1 h2 : easy) (body : string) :
  (forall v, ostream_float v <> "") ->
  (forall v, comma_free (ostream_float v) = true) ->
  ev_setopt (CURLOPT_POSTFIELDS body)
    ∈ events_of (predict_values transfer curl_easy_strerror json_parse float ostream_float
                   data1 (Z.of_nat (length data1)) mapping
                   (Client ip1 port1 (EasyHandle h1))) ->
  ev_setopt (CURLOPT_POSTFIELDS body)
    ∈ events_of (predict_values transfer curl_easy_strerror json_parse float ostream_float
                   data2 (Z.of_nat (length data2)) mapping
                   (Client ip2 port2 (EasyHandle h2))) ->
  map ostream_float data1 = map ostream_float data2.
Proof.
  intros Hprint Hcomma Hbody1 Hbody2.
  apply predict_values_postfields in Hbody1; [|exact Hprint].
  apply predict_values_postfields in Hbody2; [|exact Hprint].
  rewrite Hbody1 in Hbody2. unfold form_body, list_literal in Hbody2.
  do 3 apply (inj (String.app _)) in Hbody2.
  apply string_app_inv_r in Hbody2.
  apply (inj (String.app _)) in Hbody2.
  apply string_app_inv_r in Hbody2.
  apply concat_comma_inj; [..|exact Hbody2];
    apply Forall_forall; intros s [v [-> _]]%list_elem_of_fmap; split;
    [apply Hprint | apply Hcomma | apply Hprint | apply Hcomma].
Qed.

Lemma values_encoding_unambiguous_witness :
  (forall v, run_ostream_float v <> "")
  /\ (forall v, comma_free (run_ostream_float v) = true)
  /\ map run_ostream_float [f_1_0; f_0_0] = map run_ostream_float [f_1_0; f_0_0].
Proof.
  assert (forall v, run_ostream_float v <> "") as Hprint by (intros []; discriminate).
  assert (forall v, comma_free (run_ostream_float v) = true) as Hcomma
    by (intros []; reflexivity).
  split; [exact Hprint|]. split; [exact Hcomma|].
  apply (values_encoding_unambiguous (transfer_answer ok_text) demo_strerror demo_parse
           run_float run_ostream_float [f_1_0; f_0_0] [f_1_0; f_0_0] true
           "127.0.0.1" "127.0.0.1" 8081 8081 easy_fresh easy_fresh
           "get_results_as_string=1&mode=values&data=[1,0]&mapping=1" Hprint Hcomma);
    do 6 apply list_elem_of_further; apply list_elem_of_here.
Defined.

(** ** The write function *)

(** X22: called as libcurl calls it, with [size * nmemb] the number of bytes
    at [contents], [WriteCallback] appends exactly these bytes to the buffer,
    keeps what the buffer held before as its beginning, and reports all the
    bytes as taken, so that it never makes the transfer stop. *)
Theorem WriteCallback_takes_all (contents userp : string) (size nmemb : Z) :
  size * nmemb = Z.of_nat (String.length contents) ->
  WriteCallback contents size nmemb userp = (userp +:+ contents, size * nmemb)
  /\ String.length (WriteCallback contents size nmemb userp).1
     = (String.length userp + Z.to_nat (WriteCallback contents size nmemb userp).2)%nat.
Proof.
  intros Hsize. unfold WriteCallback. rewrite Hsize, Nat2Z.id, substring_whole.
  split; [reflexivity|]. cbn [fst snd]. by rewrite string_length_app, Nat2Z.id.
Qed.

Lemma WriteCallback_takes_all_witness :
  1 * 4 = Z.of_nat (String.length "null")
  /\ WriteCallback "null" 1 4 "" = ("null", 4).
Proof.
  split; [reflexivity|].
  exact (proj1 (WriteCallback_takes_all "null" "" 1 4 eq_refl)).
Defined.

(** ** A newly constructed client *)


